(** * la55u/la55u: GitHub statistics fetcher and README renderer

    A shallow embedding of [index.mjs] and of the parts of the JavaScript
    runtime the script relies on ([Date], [Error] with [cause], [fetch],
    [console], [fs]).  The source file holds two revisions of the script:
    lines 1-144 (module [V1], token read from [GH_ACCESS_TOKEN], counts
    commits) and lines 146-297 (module [V2], token read from
    [GITHUB_TOKEN], filters private repositories, records the latest pull
    request).

    Modelling conventions.
    - Numbers read from the API (counts) are integers, modelled in [Z]. The
      script only adds them; for the counts GitHub returns the additions stay
      far inside the range where double arithmetic is exact.
    - API responses are typed after the fields the script reads
      ([stargazers_count], [private], [name], [total_count], [items],
      [created_at], [html_url], [public_repos], [followers]).  Three failure
      classes of the untyped original are kept: a body that is not JSON, an
      empty [items] array, and a [created_at] string that is not a date.
    - [async]/[await] is sequential composition in a state-and-exception
      monad; the state holds the console and the disk. *)

From Stdlib Require Import ZArith Lia Bool Ascii String List.
From stdpp Require Import base strings gmap pretty.
Import ListNotations.

Local Open Scope string_scope.
Local Open Scope Z_scope.

(** ** The [Date] object (ECMA-262, section 21.4) *)

Module JsDate.

(** *** Day number and time within day (21.4.1.3) *)

Definition msPerDay : Z := 86400000.

Definition Day (t : Z) : Z := t / msPerDay.

Definition TimeWithinDay (t : Z) : Z := t mod msPerDay.

(** *** Year number (21.4.1.4 to 21.4.1.8) *)

Definition InLeapYear (y : Z) : bool :=
  if negb (y mod 4 =? 0) then false
  else if negb (y mod 100 =? 0) then true
  else if negb (y mod 400 =? 0) then false
  else true.

Definition DaysInYear (y : Z) : Z := if InLeapYear y then 366 else 365.

Definition DayFromYear (y : Z) : Z :=
  365 * (y - 1970) + (y - 1969) / 4 - (y - 1901) / 100 + (y - 1601) / 400.

(** The standard defines the year of a day as the largest [y] with
    [DayFromYear y <= d].  It is computed here from the mean length of a
    Gregorian year (146097 days in 400 years), corrected by at most one
    year in either direction; [YearFromDay_spec] below shows that this is
    the year of the standard. *)
Definition YearFromDay (d : Z) : Z :=
  let y0 := 1970 + (d * 400) / 146097 in
  if d <? DayFromYear y0 then y0 - 1
  else if DayFromYear (y0 + 1) <=? d then y0 + 1
  else y0.

Definition YearFromTime (t : Z) : Z := YearFromDay (Day t).

Definition DayWithinYear (t : Z) : Z := Day t - DayFromYear (YearFromTime t).

(** *** Month number and date number (21.4.1.10, 21.4.1.11) *)

(** Day within the year on which month [m] (0 = January) starts. *)
Definition monthStart (leap : bool) (m : Z) : Z :=
  let l := if leap then 1 else 0 in
  if m <=? 0 then 0
  else if m =? 1 then 31
  else if m =? 2 then 59 + l
  else if m =? 3 then 90 + l
  else if m =? 4 then 120 + l
  else if m =? 5 then 151 + l
  else if m =? 6 then 181 + l
  else if m =? 7 then 212 + l
  else if m =? 8 then 243 + l
  else if m =? 9 then 273 + l
  else if m =? 10 then 304 + l
  else if m =? 11 then 334 + l
  else 365 + l.

Definition monthOfYearDay (leap : bool) (d : Z) : Z :=
  if d <? monthStart leap 1 then 0
  else if d <? monthStart leap 2 then 1
  else if d <? monthStart leap 3 then 2
  else if d <? monthStart leap 4 then 3
  else if d <? monthStart leap 5 then 4
  else if d <? monthStart leap 6 then 5
  else if d <? monthStart leap 7 then 6
  else if d <? monthStart leap 8 then 7
  else if d <? monthStart leap 9 then 8
  else if d <? monthStart leap 10 then 9
  else if d <? monthStart leap 11 then 10
  else 11.

Definition MonthFromTime (t : Z) : Z :=
  monthOfYearDay (InLeapYear (YearFromTime t)) (DayWithinYear t).

Definition DateFromTime (t : Z) : Z :=
  DayWithinYear t + 1
  - monthStart (InLeapYear (YearFromTime t)) (MonthFromTime t).

Definition DaysInMonth (y m : Z) : Z :=
  monthStart (InLeapYear y) (m + 1) - monthStart (InLeapYear y) m.

(** *** Hours, minutes, seconds, milliseconds (21.4.1.13) *)

Definition HourFromTime (t : Z) : Z := (t / 3600000) mod 24.
Definition MinFromTime (t : Z) : Z := (t / 60000) mod 60.
Definition SecFromTime (t : Z) : Z := (t / 1000) mod 60.
Definition msFromTime (t : Z) : Z := t mod 1000.

(** *** MakeTime, MakeDay, MakeDate, TimeClip (21.4.1.27 to 21.4.1.31) *)

Definition MakeTime (hour min sec ms : Z) : Z :=
  hour * 3600000 + min * 60000 + sec * 1000 + ms.

Definition MakeDay (year month date : Z) : Z :=
  let ym := year + month / 12 in
  let mn := month mod 12 in
  DayFromYear ym + monthStart (InLeapYear ym) mn + date - 1.

Definition MakeDate (day time : Z) : Z := day * msPerDay + time.

(** A time value is a number of milliseconds within 100,000,000 days of
    the epoch, or [NaN], here [None]. *)
Definition TimeClip (t : Z) : option Z :=
  if Z.abs t <=? 8640000000000000 then Some t else None.

(** *** Decimal fields *)

Definition digitChar (n : Z) : ascii := ascii_of_nat (48 + Z.to_nat n).

Definition digitValue (c : ascii) : option Z :=
  let n := nat_of_ascii c in
  if ((48 <=? n) && (n <=? 57))%nat then Some (Z.of_nat n - 48) else None.

Definition pad2 (n : Z) : string :=
  String (digitChar (n / 10 mod 10)) (String (digitChar (n mod 10)) "").

Definition pad3 (n : Z) : string :=
  String (digitChar (n / 100 mod 10)) (pad2 n).

Definition pad4 (n : Z) : string :=
  String (digitChar (n / 1000 mod 10)) (pad3 n).

Definition pad6 (n : Z) : string :=
  String (digitChar (n / 100000 mod 10))
    (String (digitChar (n / 10000 mod 10)) (pad4 n)).

(** Reads exactly [n] decimal digits from the front of [s]. *)
Fixpoint readDigits (n : nat) (acc : Z) (s : string) : option (Z * string) :=
  match n with
  | O => Some (acc, s)
  | S k =>
      match s with
      | String c rest =>
          match digitValue c with
          | Some v => readDigits k (10 * acc + v) rest
          | None => None
          end
      | EmptyString => None
      end
  end.

(** *** Date Time String Format (21.4.1.32) *)

Inductive Offset : Type :=
| NoOffset            (* absent *)
| UtcOffset (ms : Z). (* "Z" is [UtcOffset 0]; "+HH:mm" and "-HH:mm" *)

Record Fields : Type := mkFields {
  f_year : Z; f_month : Z; f_day : Z;      (* month 1..12, day 1..31 *)
  f_time : option (Z * Z * Z * Z);         (* HH, mm, ss, sss; absent in date-only forms *)
  f_offset : Offset }.

Definition parseYear (s : string) : option (Z * string) :=
  match s with
  | String "+" rest => readDigits 6 0 rest
  | String "-" rest =>
      match readDigits 6 0 rest with
      | Some (y, rest') => if y =? 0 then None else Some (- y, rest')
      | None => None
      end
  | _ => readDigits 4 0 s
  end.

Definition parseOffset (s : string) : option Offset :=
  match s with
  | EmptyString => Some NoOffset
  | String "Z" EmptyString => Some (UtcOffset 0)
  | String sign rest =>
      match (if Ascii.eqb sign "+" then Some 1
             else if Ascii.eqb sign "-" then Some (-1) else None) with
      | Some sg =>
          match readDigits 2 0 rest with
          | Some (h, String ":" rest1) =>
              match readDigits 2 0 rest1 with
              | Some (m, EmptyString) =>
                  if (h <=? 23) && (m <=? 59)
                  then Some (UtcOffset (sg * (h * 3600000 + m * 60000)))
                  else None
              | _ => None
              end
          | _ => None
          end
      | None => None
      end
  end.

(** [HH:mm], [HH:mm:ss] or [HH:mm:ss.sss], then the optional offset. *)
Definition parseTime (s : string) : option (Z * Z * Z * Z * Offset) :=
  match readDigits 2 0 s with
  | Some (h, String ":" rest1) =>
      match readDigits 2 0 rest1 with
      | Some (m, rest2) =>
          let finish (sec ms : Z) (tail : string) :=
            match parseOffset tail with
            | Some off =>
                if (m <=? 59) && (sec <=? 59)
                   && ((h <=? 23) || ((h =? 24) && (m =? 0) && (sec =? 0) && (ms =? 0)))
                then Some (h, m, sec, ms, off)
                else None
            | None => None
            end in
          match rest2 with
          | String ":" rest3 =>
              match readDigits 2 0 rest3 with
              | Some (sec, String "." rest4) =>
                  match readDigits 3 0 rest4 with
                  | Some (ms, rest5) => finish sec ms rest5
                  | None => None
                  end
              | Some (sec, rest4) => finish sec 0 rest4
              | None => None
              end
          | _ => finish 0 0 rest2
          end
      | None => None
      end
  | _ => None
  end.

Definition withTime (y mo d : Z) (s : string) : option Fields :=
  match s with
  | EmptyString => Some (mkFields y mo d None NoOffset)
  | String "T" rest =>
      match parseTime rest with
      | Some (h, m, sec, ms, off) => Some (mkFields y mo d (Some (h, m, sec, ms)) off)
      | None => None
      end
  | _ => None
  end.

(** A string is an instance of the format when it has the syntax and every
    field is in bounds for the calendar: [None] otherwise. *)
Definition parseFormat (s : string) : option Fields :=
  match parseYear s with
  | Some (y, String "-" rest) =>
      match readDigits 2 0 rest with
      | Some (mo, String "-" rest1) =>
          match readDigits 2 0 rest1 with
          | Some (d, rest2) =>
              if (1 <=? mo) && (mo <=? 12) && (1 <=? d) && (d <=? DaysInMonth y (mo - 1))
              then withTime y mo d rest2 else None
          | None => None
          end
      | Some (mo, rest1) =>
          if (1 <=? mo) && (mo <=? 12) then withTime y mo 1 rest1 else None
      | None => None
      end
  | Some (y, rest) => withTime y 1 1 rest
  | None => None
  end.

(** What the host adds to the standard: the offset of local time, and
    whatever [Date.parse] does with a string that is not an instance of the
    format ("may fall back to any implementation-specific heuristics"). *)
Record Host : Type := mkHost {
  LocalTZA : Z -> Z;
  fallbackParse : string -> option Z }.

(** A date-only form is UTC; a date-time form without offset is local
    time (21.4.1.32). *)
Definition timeOfFields (h : Host) (f : Fields) : Z :=
  let day := MakeDay (f_year f) (f_month f - 1) (f_day f) in
  match f_time f with
  | None => MakeDate day 0
  | Some (hh, mm, ss, ms) =>
      let t := MakeDate day (MakeTime hh mm ss ms) in
      match f_offset f with
      | UtcOffset off => t - off
      | NoOffset => t - LocalTZA h t
      end
  end.

(** [Date.parse] (21.4.3.2); [None] is [NaN]. *)
Definition parse (h : Host) (s : string) : option Z :=
  match parseFormat s with
  | Some f => TimeClip (timeOfFields h f)
  | None =>
      match fallbackParse h s with
      | Some t => TimeClip t
      | None => None
      end
  end.

(** *** [Date.prototype.toISOString] (21.4.4.36) without its range check:
    the text for a finite time value. *)
Definition isoYear (y : Z) : string :=
  if (0 <=? y) && (y <=? 9999) then pad4 y
  else (if 0 <=? y then "+" else "-") +:+ pad6 (Z.abs y).

Definition isoDatePart (t : Z) : string :=
  isoYear (YearFromTime t) +:+ "-" +:+ pad2 (MonthFromTime t + 1)
    +:+ "-" +:+ pad2 (DateFromTime t).

Definition isoTimePart (t : Z) : string :=
  pad2 (HourFromTime t) +:+ ":" +:+ pad2 (MinFromTime t) +:+ ":"
    +:+ pad2 (SecFromTime t) +:+ "." +:+ pad3 (msFromTime t).

Definition isoString (t : Z) : string :=
  isoDatePart t +:+ "T" +:+ isoTimePart t +:+ "Z".

(** [String.prototype.substring(0, n)]. *)
Definition substring0 (n : nat) (s : string) : string := String.substring 0 n s.

(** The first ten characters of the ISO text of a time value. *)
Definition dateText (t : Z) : string := substring0 10 (isoString t).

(** The text [YYYY-MM-DD] of a year from 0 to 9999, a month from 1 to 12
    and a day. *)
Definition ymdText (y mo d : Z) : string :=
  pad4 y +:+ "-" +:+ pad2 mo +:+ "-" +:+ pad2 d.

(** A calendar-date string: [YYYY-MM-DD] with a month from 01 to 12 and a
    day that exists in that month of that year. *)
Definition isCalendarDate (s : string) : bool :=
  match readDigits 4 0 s with
  | Some (y, String "-" rest) =>
      match readDigits 2 0 rest with
      | Some (mo, String "-" rest1) =>
          match readDigits 2 0 rest1 with
          | Some (d, EmptyString) =>
              (1 <=? mo) && (mo <=? 12) && (1 <=? d) && (d <=? DaysInMonth y (mo - 1))
          | _ => false
          end
      | _ => false
      end
  | _ => false
  end.

End JsDate.

(** ** Errors, console, disk and the monad of the script *)

(** [new Error(message, { cause })] and the built-in error classes; [name]
    is "Error", "TypeError", "RangeError" or "SyntaxError". *)
Inductive JsError : Type :=
| mkError (name message : string) (cause : option JsError).

Definition errorName (e : JsError) : string :=
  match e with mkError n _ _ => n end.

Definition errorMessage (e : JsError) : string :=
  match e with mkError _ m _ => m end.

Definition errorCause (e : JsError) : option JsError :=
  match e with mkError _ _ c => c end.

(** [Error.prototype.toString] (20.5.3.4). *)
Definition errorToString (e : JsError) : string :=
  if String.eqb (errorName e) "" then errorMessage e
  else if String.eqb (errorMessage e) "" then errorName e
  else errorName e +:+ ": " +:+ errorMessage e.

(** The error at the root of a chain of causes. *)
Fixpoint rootCause (e : JsError) : JsError :=
  match e with
  | mkError _ _ (Some c) => rootCause c
  | mkError _ _ None => e
  end.

(** The chain of causes, outermost first. *)
Fixpoint causeChain (e : JsError) : list JsError :=
  match e with
  | mkError _ _ (Some c) => e :: causeChain c
  | mkError _ _ None => [e]
  end.

Inductive Exc (A : Type) : Type :=
| Ok (a : A)
| Throw (e : JsError).
Arguments Ok {A} a.
Arguments Throw {A} e.

Inductive Stream : Type := Stdout | Stderr.

Inductive Printed : Type :=
| PStr (s : string)
| PErr (e : JsError).

(** One call of [console.log] (to [Stdout]) or [console.error] (to
    [Stderr]) with its arguments. *)
Record LogLine : Type := mkLine { stream : Stream; args : list Printed }.

Record State : Type := mkState {
  console : list LogLine;           (* oldest first *)
  disk : gmap string string }.      (* path to content *)

Definition M (A : Type) : Type := State -> Exc A * State.

Definition ret {A} (a : A) : M A := fun st => (Ok a, st).

Definition bind {A B} (m : M A) (k : A -> M B) : M B :=
  fun st =>
    match m st with
    | (Ok a, st') => k a st'
    | (Throw e, st') => (Throw e, st')
    end.

Definition throw {A} (e : JsError) : M A := fun st => (Throw e, st).

(** [try { body } catch (error) { handler }]: what [body] did to the state
    before it threw stays done. *)
Definition try_catch {A} (body : M A) (handler : JsError -> M A) : M A :=
  fun st =>
    match body st with
    | (Ok a, st') => (Ok a, st')
    | (Throw e, st') => handler e st'
    end.

Definition liftExc {A} (r : Exc A) : M A := fun st => (r, st).

Declare Scope js_scope.
Delimit Scope js_scope with js.
Notation "x <- m ;; k" := (bind m (fun x => k))
  (at level 100, m at next level, right associativity) : js_scope.
Notation "m ;; k" := (bind m (fun _ => k))
  (at level 100, right associativity) : js_scope.
Local Open Scope js_scope.

Definition console_log (a : list Printed) : M unit :=
  fun st => (Ok tt, mkState (console st ++ [mkLine Stdout a]) (disk st)).

Definition console_error (a : list Printed) : M unit :=
  fun st => (Ok tt, mkState (console st ++ [mkLine Stderr a]) (disk st)).

(** ** The world outside the script *)

(** An HTTP response as the script sees it: [ok], [status], [statusText]
    and the outcome of [response.json()], which rejects when the body is not
    JSON.  For a response that is not [ok] the script parses the body and
    drops the result, so only whether it parses matters there. *)
Record Response (A : Type) : Type := mkResponse {
  ok : bool;
  status : Z;
  statusText : string;
  json : Exc A }.
Arguments mkResponse {A}.
Arguments ok {A}.
Arguments status {A}.
Arguments statusText {A}.
Arguments json {A}.

Record Request : Type := mkRequest {
  url : string;
  headers : list (string * string) }.

(** The outcome of [fetch]: it rejects (no connection, DNS, TLS) or resolves
    to a response. *)
Definition Fetch (A : Type) : Type := Exc (Response A).

(** Records of the GitHub REST API, with the fields the script reads. *)
Record Repo : Type := mkRepo {
  name : string;
  stargazers_count : Z;
  private : bool }.

(** An entry of a commit listing; the script only counts them. *)
Record Commit : Type := mkCommit { sha : string }.

Module Item.
Record t : Type := mk { created_at : string; html_url : string }.
End Item.

Record SearchResult : Type := mkSearch {
  total_count : Z;
  items : list Item.t }.

Module User.
Record t : Type := mk { created_at : string; public_repos : Z; followers : Z }.
End User.

(** A value of a field of the object handed to the template. *)
Inductive Value : Type :=
| VNum (n : Z)
| VStr (s : string).

(** An object literal: its fields in the order written. [None] below is
    [undefined]. *)
Definition Object : Type := list (string * Value).

Record World : Type := mkWorld {
  env : gmap string string;                      (* process.env *)
  repo_listing : Request -> Fetch (list Repo);   (* .../repos?... *)
  commit_listing : Request -> Fetch (list Commit); (* .../commits *)
  search : Request -> Fetch SearchResult;        (* search/issues?q=... *)
  profile : Request -> Fetch User.t;             (* user, users/<name> *)
  now : Z;                                       (* the clock, ms since the epoch *)
  host : JsDate.Host;
  (** [handlebars.compile(template)(data)]: the external engine. *)
  handlebars : string -> option Object -> Exc string;
  (** Whether [fs.writeFileSync] may write the path. *)
  writable : string -> bool }.

(** ** [new Date(...)] and [toISOString] as the script uses them *)

(** A [Date] object: its time value, [None] for an invalid date. *)
Definition DateObj : Type := option Z.

(** [new Date(string)]. *)
Definition Date_of_string (w : World) (s : string) : DateObj :=
  JsDate.parse (host w) s.

(** [new Date()]: the current time. *)
Definition Date_now (w : World) : DateObj := JsDate.TimeClip (now w).

Definition toISOString (d : DateObj) : Exc string :=
  match d with
  | Some t => Ok (JsDate.isoString t)
  | None => Throw (mkError "RangeError" "Invalid time value" None)
  end.

(** [d.toISOString().substring(0, 10)]. *)
Definition isoDate (d : DateObj) : Exc string :=
  match toISOString d with
  | Ok s => Ok (JsDate.substring0 10 s)
  | Throw e => Throw e
  end.

(** ** [fs] *)

Definition ENOENT (path : string) : JsError :=
  mkError "Error" ("ENOENT: no such file or directory, open '" +:+ path +:+ "'") None.

Definition EACCES (path : string) : JsError :=
  mkError "Error" ("EACCES: permission denied, open '" +:+ path +:+ "'") None.

Definition readFileSync (path : string) : M string :=
  fun st =>
    match disk st !! path with
    | Some content => (Ok content, st)
    | None => (Throw (ENOENT path), st)
    end.

Definition writeFileSync (w : World) (path content : string) : M unit :=
  fun st =>
    if writable w path
    then (Ok tt, mkState (console st) (<[path := content]> (disk st)))
    else (Throw (EACCES path), st).

(** ** The script: what both revisions share *)

Definition username : string := "la55u".

(** A template literal prints an undefined value as "undefined". *)
Definition interpolate (v : option string) : string :=
  match v with
  | Some s => s
  | None => "undefined"
  end.

Definition requestHeaders (accessToken : option string) : list (string * string) :=
  [ ("Authorization", "Bearer " +:+ interpolate accessToken);
    ("Accept", "application/vnd.github+json");
    ("User-Agent", "Node.js");
    ("X-GitHub-Api-Version", "2022-11-28") ].

(** [await fetch(url, { headers })] against one family of endpoints. *)
Definition fetch {A} (endpoint : Request -> Fetch A) (u : string)
    (h : list (string * string)) : M (Response A) :=
  liftExc (endpoint (mkRequest u h)).

(** [fetchData(path)] (lines 12-33 and 158-179). *)
Definition fetchData {A} (accessToken : option string)
    (endpoint : Request -> Fetch A) (path : string) : M A :=
  try_catch
    (console_log [PStr "Fetching: "; PStr path] ;;
     response <- fetch endpoint ("https://api.github.com/" +:+ path)
                   (requestHeaders accessToken) ;;
     (if negb (ok response) then
        (* parse error body *)
        err <- liftExc (json response) ;;
        throw (mkError "Error"
                 (pretty (status response) +:+ " " +:+ statusText response) None)
      else ret tt) ;;
     data <- liftExc (json response) ;;
     ret data)
    (fun error =>
       throw (mkError "Error" ("Error fetching path `" +:+ path +:+ "`") (Some error))).

(** [loadTemplate(templateFilePath)] (lines 106-114 and 259-267). *)
Definition loadTemplate (templateFilePath : string) : M string :=
  try_catch
    (templateContent <- readFileSync templateFilePath ;;
     ret templateContent)
    (fun error =>
       console_error [PStr "Error loading template:"; PErr error] ;;
       throw error).

(** [generateReadme(templateFilePath, data)] (lines 121-131 and 274-284);
    [data] is [None] when the caller passes [undefined]. *)
Definition generateReadme (w : World) (templateFilePath : string)
    (data : option Object) : M string :=
  try_catch
    (templateContent <- loadTemplate templateFilePath ;;
     readmeContent <- liftExc (handlebars w templateContent data) ;;
     ret readmeContent)
    (fun error =>
       console_error [PStr "Error generating README content:"; PErr error] ;;
       throw error).

(** [a[0].prop] where [a[0]] may be undefined. *)
Definition getProp {A B} (o : option A) (prop : string) (f : A -> B) : Exc B :=
  match o with
  | Some a => Ok (f a)
  | None =>
      Throw (mkError "TypeError"
               ("Cannot read properties of undefined (reading '" +:+ prop +:+ "')") None)
  end.

(** ** First revision (lines 1-144) *)

Module V1.

Definition accessToken (w : World) : option string := env w !! "GH_ACCESS_TOKEN".

Record Summary : Type := mkSummary {
  issuesOpened : Z;
  pullRequestsOpened : Z;
  pullRequestsMerged : Z;
  commentsOnIssues : Z;
  publicRepoCount : Z;
  totalStars : Z;
  totalCommits : Z;
  registeredDate : string;
  firstPullRequestDate : string;
  sponsoredAccounts : Z;
  statUpdated : string;
  followers : Z }.

Definition toObject (s : Summary) : Object :=
  [ ("issuesOpened", VNum (issuesOpened s));
    ("pullRequestsOpened", VNum (pullRequestsOpened s));
    ("pullRequestsMerged", VNum (pullRequestsMerged s));
    ("commentsOnIssues", VNum (commentsOnIssues s));
    ("publicRepoCount", VNum (publicRepoCount s));
    ("totalStars", VNum (totalStars s));
    ("totalCommits", VNum (totalCommits s));
    ("registeredDate", VStr (registeredDate s));
    ("firstPullRequestDate", VStr (firstPullRequestDate s));
    ("sponsoredAccounts", VNum (sponsoredAccounts s));
    ("statUpdated", VStr (statUpdated s));
    ("followers", VNum (followers s)) ].

(** Lines 43-46: [repositories.forEach(repo => totalStars += ...)]. *)
Definition sumStars (repositories : list Repo) : Z :=
  fold_left (fun totalStars repo => totalStars + stargazers_count repo) repositories 0.

Definition commitsPath (repo : Repo) : string :=
  "repos/" +:+ username +:+ "/" +:+ name repo +:+ "/commits".

(** Lines 50-53: the [for ... of] loop, one awaited fetch per repository. *)
Fixpoint countCommits (w : World) (repositories : list Repo) (totalCommits : Z) : M Z :=
  match repositories with
  | [] => ret totalCommits
  | repo :: rest =>
      commitsData <- fetchData (accessToken w) (commit_listing w) (commitsPath repo) ;;
      countCommits w rest (totalCommits + Z.of_nat (length commitsData))
  end.

Definition reposPath : string := "users/" +:+ username +:+ "/repos?type=all&per_page=100".
Definition issuesPath : string := "search/issues?q=author:" +:+ username +:+ "+type:issue".
Definition prsPath : string :=
  "search/issues?q=author:" +:+ username +:+ "+type:pr&sort=created&order=asc".
Definition mergedPath : string :=
  "search/issues?q=author:" +:+ username +:+ "+type:pr+is:merged".
Definition commentsPath : string := "search/issues?q=commenter:" +:+ username.
Definition userPath : string := "user".

(** The body of the [try] block of [fetchAll] (lines 40-96). *)
Definition fetchAll_body (w : World) : M Summary :=
  (* Fetch repositories contributed to *)
  repositories <- fetchData (accessToken w) (repo_listing w) reposPath ;;
  let totalStars := sumStars repositories in
  (* Calculate total commits count *)
  totalCommits <- countCommits w repositories 0 ;;
  (* Fetch issues opened *)
  issuesData <- fetchData (accessToken w) (search w) issuesPath ;;
  let issuesOpened := total_count issuesData in
  (* Fetch merge requests (pull requests) opened *)
  prs <- fetchData (accessToken w) (search w) prsPath ;;
  let pullRequestsOpened := total_count prs in
  firstPullRequestDate <- liftExc (getProp (head (items prs)) "created_at" Item.created_at) ;;
  (* Fetch merge requests merged *)
  mergedPRs <- fetchData (accessToken w) (search w) mergedPath ;;
  let pullRequestsMerged := total_count mergedPRs in
  (* Fetch comments made on issues *)
  commentsOnIssuesData <- fetchData (accessToken w) (search w) commentsPath ;;
  let commentsOnIssues := total_count commentsOnIssuesData in
  (* Fetch user data *)
  userData <- fetchData (accessToken w) (profile w) userPath ;;
  let registeredDate := User.created_at userData in
  let publicRepoCount := User.public_repos userData in
  let followers := User.followers userData in
  registeredDate' <- liftExc (isoDate (Date_of_string w registeredDate)) ;;
  firstPullRequestDate' <- liftExc (isoDate (Date_of_string w firstPullRequestDate)) ;;
  statUpdated <- liftExc (isoDate (Date_now w)) ;;
  ret {| issuesOpened := issuesOpened;
         pullRequestsOpened := pullRequestsOpened;
         pullRequestsMerged := pullRequestsMerged;
         commentsOnIssues := commentsOnIssues;
         publicRepoCount := publicRepoCount;
         totalStars := totalStars;
         totalCommits := totalCommits;
         registeredDate := registeredDate';
         firstPullRequestDate := firstPullRequestDate';
         sponsoredAccounts := 3; (* TODO *)
         statUpdated := statUpdated;
         followers := followers |}.

(** [fetchAll()] (lines 38-100): the handler logs and falls off the end
    of the function, so the promise resolves to [undefined], here [None]. *)
Definition fetchAll (w : World) : M (option Summary) :=
  try_catch
    (s <- fetchAll_body w ;; ret (Some s))
    (fun error =>
       console_error [PStr "Something went wrong:"; PErr error] ;;
       ret None).

(** [main()] (lines 133-142). *)
Definition main (w : World) : M unit :=
  try_catch
    (data <- fetchAll w ;;
     readmeContent <- generateReadme w "README.md.hbs" (option_map toObject data) ;;
     writeFileSync w "README.md" readmeContent ;;
     console_log [PStr "README file updated successfully."])
    (fun error =>
       console_error [PStr "Error updating README file:"; PErr error]).

End V1.

(** ** Second revision (lines 146-297) *)

Module V2.

Definition accessToken (w : World) : option string := env w !! "GITHUB_TOKEN".

Record Summary : Type := mkSummary {
  issuesOpened : Z;
  prsOpened : Z;
  prsMerged : Z;
  commentsOnIssues : Z;
  publicRepoCount : Z;
  totalStars : Z;
  registeredDate : string;
  firstPRDate : string;
  firstPRUrl : string;
  sponsoredAccounts : Z;
  statUpdated : string;
  followers : Z;
  latestPRDate : string;
  latestPRUrl : string }.

Definition toObject (s : Summary) : Object :=
  [ ("issuesOpened", VNum (issuesOpened s));
    ("prsOpened", VNum (prsOpened s));
    ("prsMerged", VNum (prsMerged s));
    ("commentsOnIssues", VNum (commentsOnIssues s));
    ("publicRepoCount", VNum (publicRepoCount s));
    ("totalStars", VNum (totalStars s));
    ("registeredDate", VStr (registeredDate s));
    ("firstPRDate", VStr (firstPRDate s));
    ("firstPRUrl", VStr (firstPRUrl s));
    ("sponsoredAccounts", VNum (sponsoredAccounts s));
    ("statUpdated", VStr (statUpdated s));
    ("followers", VNum (followers s));
    ("latestPRDate", VStr (latestPRDate s));
    ("latestPRUrl", VStr (latestPRUrl s)) ].

(** Lines 189-195: only count stars from public repositories. *)
Definition sumStars (repositories : list Repo) : Z :=
  fold_left
    (fun totalStars repo =>
       if negb (private repo) then totalStars + stargazers_count repo
       else totalStars)
    repositories 0.

Definition reposPath : string := "users/" +:+ username +:+ "/repos?type=public&per_page=100".
Definition issuesPath : string := "search/issues?q=author:" +:+ username +:+ "+type:issue".
Definition firstPrPath : string :=
  "search/issues?q=author:" +:+ username +:+ "+type:pr&sort=created&order=asc&per_page=1".
Definition latestPrPath : string :=
  "search/issues?q=author:" +:+ username +:+ "+type:pr&sort=created&order=desc&per_page=1".
Definition mergedPath : string :=
  "search/issues?q=author:" +:+ username +:+ "+type:pr+is:merged".
Definition commentsPath : string := "search/issues?q=commenter:" +:+ username.
Definition userPath : string := "users/" +:+ username.

(** The body of the [try] block of [fetchAll] (lines 186-248). *)
Definition fetchAll_body (w : World) : M Summary :=
  (* Fetch public repositories only *)
  repositories <- fetchData (accessToken w) (repo_listing w) reposPath ;;
  let totalStars := sumStars repositories in
  (* Fetch issues opened *)
  issuesData <- fetchData (accessToken w) (search w) issuesPath ;;
  let issuesOpened := total_count issuesData in
  (* Fetch merge requests (pull requests) opened *)
  firstPrData <- fetchData (accessToken w) (search w) firstPrPath ;;
  let prsOpened := total_count firstPrData in
  firstPRDate <- liftExc (getProp (head (items firstPrData)) "created_at" Item.created_at) ;;
  firstPRUrl <- liftExc (getProp (head (items firstPrData)) "html_url" Item.html_url) ;;
  (* Most *)
  latestPrData <- fetchData (accessToken w) (search w) latestPrPath ;;
  latestPRDate <- liftExc (getProp (head (items latestPrData)) "created_at" Item.created_at) ;;
  latestPRUrl <- liftExc (getProp (head (items latestPrData)) "html_url" Item.html_url) ;;
  (* Fetch merge requests merged *)
  mergedPRs <- fetchData (accessToken w) (search w) mergedPath ;;
  let prsMerged := total_count mergedPRs in
  (* Fetch comments made on issues *)
  commentsOnIssuesData <- fetchData (accessToken w) (search w) commentsPath ;;
  let commentsOnIssues := total_count commentsOnIssuesData in
  (* Fetch user data *)
  userData <- fetchData (accessToken w) (profile w) userPath ;;
  let registeredDate := User.created_at userData in
  let publicRepoCount := User.public_repos userData in
  let followers := User.followers userData in
  registeredDate' <- liftExc (isoDate (Date_of_string w registeredDate)) ;;
  firstPRDate' <- liftExc (isoDate (Date_of_string w firstPRDate)) ;;
  statUpdated <- liftExc (isoDate (Date_now w)) ;;
  latestPRDate' <- liftExc (isoDate (Date_of_string w latestPRDate)) ;;
  ret {| issuesOpened := issuesOpened;
         prsOpened := prsOpened;
         prsMerged := prsMerged;
         commentsOnIssues := commentsOnIssues;
         publicRepoCount := publicRepoCount;
         totalStars := totalStars;
         registeredDate := registeredDate';
         firstPRDate := firstPRDate';
         firstPRUrl := firstPRUrl;
         sponsoredAccounts := 3; (* TODO *)
         statUpdated := statUpdated;
         followers := followers;
         latestPRDate := latestPRDate';
         latestPRUrl := latestPRUrl |}.

(** [fetchAll()] (lines 184-253): the handler logs and rethrows, wrapped;
    the message of the new error is the old error converted to a string. *)
Definition fetchAll (w : World) : M Summary :=
  try_catch
    (fetchAll_body w)
    (fun error =>
       console_error [PStr "Error fetching data:"; PErr error] ;;
       throw (mkError "Error" (errorToString error) (Some error))).

(** [main()] (lines 286-295). *)
Definition main (w : World) : M unit :=
  try_catch
    (data <- fetchAll w ;;
     readmeContent <- generateReadme w "README.md.hbs" (Some (toObject data)) ;;
     writeFileSync w "README.md" readmeContent ;;
     console_log [PStr "README file updated successfully."])
    (fun error =>
       console_error [PStr "Error updating README file:"; PErr error]).

End V2.

(** ** Decision by enumeration *)

(** [check_range p base f] evaluates [f] on every integer from [base] up to
    [base + p - 1]; used to settle calendar facts on one 400-year cycle. *)
Fixpoint check_range (p : positive) (base : Z) (f : Z -> bool) : bool :=
  match p with
  | xH => f base
  | xO q => check_range q base f && check_range q (base + Z.pos q) f
  | xI q => f base && check_range q (base + 1) f && check_range q (base + 1 + Z.pos q) f
  end.

(** ** A reference template engine and sample worlds *)

(** Handlebars is an external library, a field of [World] in everything
    above.  For runs on concrete worlds this is its behaviour on templates
    made of text and [{{name}}] placeholders, compiled with default
    options: a placeholder prints the field of that name, HTML-escaped, and
    prints nothing when the field is missing or the whole data object is
    [undefined]. *)
Module Mustache.

Definition entity (code : string) : string := "&" +:+ code +:+ ";".

(** [Handlebars.Utils.escapeExpression] on one character. *)
Definition escapeChar (c : ascii) : string :=
  let n := nat_of_ascii c in
  if (n =? 38)%nat then entity "amp"
  else if (n =? 60)%nat then entity "lt"
  else if (n =? 62)%nat then entity "gt"
  else if (n =? 34)%nat then entity "quot"
  else if (n =? 39)%nat then entity "#x27"
  else if (n =? 96)%nat then entity "#x60"
  else if (n =? 61)%nat then entity "#x3D"
  else String c "".

Fixpoint escapeExpression (s : string) : string :=
  match s with
  | EmptyString => ""
  | String c rest => escapeChar c +:+ escapeExpression rest
  end.

Fixpoint lookup (o : Object) (field : string) : option Value :=
  match o with
  | [] => None
  | (k, v) :: rest => if String.eqb k field then Some v else lookup rest field
  end.

Definition printField (data : option Object) (field : string) : string :=
  match data with
  | None => ""
  | Some o =>
      match lookup o field with
      | Some (VNum n) => pretty n
      | Some (VStr s) => escapeExpression s
      | None => ""
      end
  end.

(** [tag] is [None] in text and [Some name] inside a placeholder, with the
    part of the name read so far. *)
Fixpoint renderFrom (data : option Object) (tag : option string) (s : string)
    : Exc string :=
  match s, tag with
  | EmptyString, None => Ok ""
  | EmptyString, Some _ =>
      Throw (mkError "Error" "Parse error: expecting 'CLOSE', got 'EOF'" None)
  | String "{" (String "{" rest), None => renderFrom data (Some "") rest
  | String "}" (String "}" rest), Some field =>
      match renderFrom data None rest with
      | Ok out => Ok (printField data field +:+ out)
      | Throw e => Throw e
      end
  | String c rest, None =>
      match renderFrom data None rest with
      | Ok out => Ok (String c out)
      | Throw e => Throw e
      end
  | String c rest, Some field => renderFrom data (Some (field +:+ String c "")) rest
  end.

Definition render (template : string) (data : option Object) : Exc string :=
  renderFrom data None template.

End Mustache.

Module Sample.

Definition api (path : string) : string := "https://api.github.com/" +:+ path.

Definition ok200 {A} (body : A) : Fetch A :=
  Ok (mkResponse true 200 "OK" (Ok body)).

Definition notFound {A} : Fetch A :=
  Ok (mkResponse false 404 "Not Found"
        (Throw (mkError "SyntaxError" "Unexpected end of JSON input" None))).

Definition repositories : list Repo :=
  [ mkRepo "alpha" 1 false; mkRepo "beta" 2 false; mkRepo "gamma" 3 true ].

Definition repos_endpoint (r : Request) : Fetch (list Repo) :=
  if String.eqb (url r) (api V1.reposPath) || String.eqb (url r) (api V2.reposPath)
  then ok200 repositories else notFound.

Definition commits_endpoint (r : Request) : Fetch (list Commit) :=
  if String.eqb (url r) (api "repos/la55u/alpha/commits")
  then ok200 [mkCommit "a1"; mkCommit "a2"]
  else if String.eqb (url r) (api "repos/la55u/beta/commits")
  then ok200 [mkCommit "b1"]
  else if String.eqb (url r) (api "repos/la55u/gamma/commits")
  then ok200 [mkCommit "c1"; mkCommit "c2"; mkCommit "c3"]
  else notFound.

Definition oldest : Item.t :=
  Item.mk "2016-02-29T23:59:59Z" "https://github.com/o/r/pull/1".
Definition newest : Item.t :=
  Item.mk "2024-05-06T07:08:09Z" "https://github.com/o/r/pull/9".

(** The pull-request queries answer with the items [first]. *)
Definition search_with (asc desc : list Item.t) (r : Request) : Fetch SearchResult :=
  if String.eqb (url r) (api V1.issuesPath) then ok200 (mkSearch 5 [])
  else if String.eqb (url r) (api V1.prsPath) || String.eqb (url r) (api V2.firstPrPath)
  then ok200 (mkSearch (Z.of_nat (length asc)) asc)
  else if String.eqb (url r) (api V2.latestPrPath)
  then ok200 (mkSearch (Z.of_nat (length desc)) desc)
  else if String.eqb (url r) (api V1.mergedPath) then ok200 (mkSearch 1 [])
  else if String.eqb (url r) (api V1.commentsPath) then ok200 (mkSearch 7 [])
  else notFound.

Definition search_endpoint : Request -> Fetch SearchResult :=
  search_with [oldest; newest] [newest; oldest].

Definition profile_with (created : string) (r : Request) : Fetch User.t :=
  if String.eqb (url r) (api V1.userPath) || String.eqb (url r) (api V2.userPath)
  then ok200 (User.mk created 2 4) else notFound.

Definition profile_endpoint : Request -> Fetch User.t := profile_with "2015-03-14T09:26:53Z".

Definition utcHost : JsDate.Host := JsDate.mkHost (fun _ => 0) (fun _ => None).

Definition environment : gmap string string :=
  <["GH_ACCESS_TOKEN" := "s3cret"]> (<["GITHUB_TOKEN" := "s3cret"]> ∅).

(** 2024-06-01T12:00:00.000Z *)
Definition noon : Z := 1717243200000.

Definition world_of (repos : Request -> Fetch (list Repo))
    (srch : Request -> Fetch SearchResult) (prof : Request -> Fetch User.t) : World :=
  {| env := environment;
     repo_listing := repos;
     commit_listing := commits_endpoint;
     search := srch;
     profile := prof;
     now := noon;
     host := utcHost;
     handlebars := Mustache.render;
     writable := fun _ => true |}.

(** Every request is answered. *)
Definition world : World := world_of repos_endpoint search_endpoint profile_endpoint.

(** The connection fails on the first request. *)
Definition offline : World :=
  world_of (fun _ => Throw (mkError "TypeError" "fetch failed" None))
    search_endpoint profile_endpoint.

(** The token is refused on the last request, the user profile. *)
Definition unauthorized : World :=
  world_of repos_endpoint search_endpoint
    (fun _ => Ok (mkResponse false 401 "Unauthorized"
                    (Ok (User.mk "" 0 0)))).

(** The account has opened no pull request. *)
Definition noPullRequests : World :=
  world_of repos_endpoint (search_with [] []) profile_endpoint.


(** The profile carries a registration date that is no date. *)
Definition undated : World :=
  world_of repos_endpoint search_endpoint (profile_with "not a date").

(** No token in the environment, and a server that refuses the requests
    that carry none. *)
Definition refusing {A} (r : Request) : Fetch A :=
  Ok (mkResponse false 401 "Unauthorized"
        (Throw (mkError "SyntaxError" "Unexpected end of JSON input" None))).

Definition anonymous : World :=
  {| env := ∅;
     repo_listing := refusing;
     commit_listing := refusing;
     search := refusing;
     profile := refusing;
     now := noon;
     host := utcHost;
     handlebars := Mustache.render;
     writable := fun _ => true |}.

(** A disk without the template. *)
Definition bare : State :=
  {| console := []; disk := <["README.md" := "Stars: 6"]> ∅ |}.

(** The gateway answers 200 with a page that is not JSON. *)
Definition htmlBody : Request -> Fetch User.t :=
  fun _ => Ok (mkResponse true 200 "OK"
                 (Throw (mkError "SyntaxError" "Unexpected token '<'" None))).

Definition template : string :=
  "Stars: {{totalStars}}, joined {{registeredDate}}, updated {{statUpdated}}".

Definition start : State :=
  {| console := [];
     disk := <["README.md" := "Stars: 6"]> (<["README.md.hbs" := template]> ∅) |}.

End Sample.

(** ** Vocabulary of the statements *)

(** The error [fetchData] throws: the cause is the error it caught. *)
Definition wrapFetchError (path : string) (cause : JsError) : JsError :=
  mkError "Error" ("Error fetching path `" +:+ path +:+ "`") (Some cause).

(** The error thrown for a response whose status is not a success. *)
Definition statusError {A} (r : Response A) : JsError :=
  mkError "Error" (pretty (status r) +:+ " " +:+ statusText r) None.

(** The request [fetchData] sends for a path. *)
Definition requestFor (accessToken : option string) (path : string) : Request :=
  mkRequest ("https://api.github.com/" +:+ path) (requestHeaders accessToken).

(** The outcome of a call of [fetchData], by cases on what the network
    did. *)
Definition fetchOutcome {A} (accessToken : option string)
    (endpoint : Request -> Fetch A) (path : string) : Exc A :=
  match endpoint (requestFor accessToken path) with
  | Throw e => Throw (wrapFetchError path e)
  | Ok r =>
      match json r with
      | Throw e => Throw (wrapFetchError path e)
      | Ok a => if ok r then Ok a else Throw (wrapFetchError path (statusError r))
      end
  end.

(** The diagnostic line written before each request. *)
Definition fetchLine (path : string) : LogLine :=
  mkLine Stdout [PStr "Fetching: "; PStr path].

Definition errorLine (label : string) (e : JsError) : LogLine :=
  mkLine Stderr [PStr label; PErr e].

Definition successLine : LogLine :=
  mkLine Stdout [PStr "README file updated successfully."].

(** The state after some more lines on the console. *)
Definition logged (lines : list LogLine) (st : State) : State :=
  mkState (console st ++ lines) (disk st).

(** The endpoint answers the request for [path] with a successful status
    and a JSON body that decodes to [a]. *)
Definition responds {A} (endpoint : Request -> Fetch A) (accessToken : option string)
    (path : string) (a : A) : Prop :=
  exists r, endpoint (requestFor accessToken path) = Ok r
            /\ ok r = true /\ json r = Ok a.

Definition sumZ (l : list Z) : Z := fold_right Z.add 0 l.

(** The same world at another time. *)
Definition atTime (w : World) (t : Z) : World :=
  {| env := env w;
     repo_listing := repo_listing w;
     commit_listing := commit_listing w;
     search := search w;
     profile := profile w;
     now := t;
     host := host w;
     handlebars := handlebars w;
     writable := writable w |}.

Definition mapExc {A B} (f : A -> B) (r : Exc A) : Exc B :=
  match r with
  | Ok a => Ok (f a)
  | Throw e => Throw e
  end.

Definition V1_setStatUpdated (d : string) (s : V1.Summary) : V1.Summary :=
  {| V1.issuesOpened := V1.issuesOpened s;
     V1.pullRequestsOpened := V1.pullRequestsOpened s;
     V1.pullRequestsMerged := V1.pullRequestsMerged s;
     V1.commentsOnIssues := V1.commentsOnIssues s;
     V1.publicRepoCount := V1.publicRepoCount s;
     V1.totalStars := V1.totalStars s;
     V1.totalCommits := V1.totalCommits s;
     V1.registeredDate := V1.registeredDate s;
     V1.firstPullRequestDate := V1.firstPullRequestDate s;
     V1.sponsoredAccounts := V1.sponsoredAccounts s;
     V1.statUpdated := d;
     V1.followers := V1.followers s |}.

Definition V2_setStatUpdated (d : string) (s : V2.Summary) : V2.Summary :=
  {| V2.issuesOpened := V2.issuesOpened s;
     V2.prsOpened := V2.prsOpened s;
     V2.prsMerged := V2.prsMerged s;
     V2.commentsOnIssues := V2.commentsOnIssues s;
     V2.publicRepoCount := V2.publicRepoCount s;
     V2.totalStars := V2.totalStars s;
     V2.registeredDate := V2.registeredDate s;
     V2.firstPRDate := V2.firstPRDate s;
     V2.firstPRUrl := V2.firstPRUrl s;
     V2.sponsoredAccounts := V2.sponsoredAccounts s;
     V2.statUpdated := d;
     V2.followers := V2.followers s;
     V2.latestPRDate := V2.latestPRDate s;
     V2.latestPRUrl := V2.latestPRUrl s |}.

(** What a successful aggregation of the second revision read from the
    world, and the summary it built from that. *)
Record V2_Fetched : Type := mkV2Fetched {
  f2_repositories : list Repo;
  f2_issuesData : SearchResult;
  f2_firstPrData : SearchResult;
  f2_first : Item.t;
  f2_latestPrData : SearchResult;
  f2_latest : Item.t;
  f2_mergedPRs : SearchResult;
  f2_commentsOnIssuesData : SearchResult;
  f2_userData : User.t;
  f2_registered : Z;
  f2_firstDate : Z;
  f2_now : Z;
  f2_latestDate : Z }.

Definition V2_fetched (w : World) (f : V2_Fetched) : Prop :=
  responds (repo_listing w) (V2.accessToken w) V2.reposPath (f2_repositories f)
  /\ responds (search w) (V2.accessToken w) V2.issuesPath (f2_issuesData f)
  /\ responds (search w) (V2.accessToken w) V2.firstPrPath (f2_firstPrData f)
  /\ head (items (f2_firstPrData f)) = Some (f2_first f)
  /\ responds (search w) (V2.accessToken w) V2.latestPrPath (f2_latestPrData f)
  /\ head (items (f2_latestPrData f)) = Some (f2_latest f)
  /\ responds (search w) (V2.accessToken w) V2.mergedPath (f2_mergedPRs f)
  /\ responds (search w) (V2.accessToken w) V2.commentsPath (f2_commentsOnIssuesData f)
  /\ responds (profile w) (V2.accessToken w) V2.userPath (f2_userData f)
  /\ Date_of_string w (User.created_at (f2_userData f)) = Some (f2_registered f)
  /\ Date_of_string w (Item.created_at (f2_first f)) = Some (f2_firstDate f)
  /\ Date_now w = Some (f2_now f)
  /\ Date_of_string w (Item.created_at (f2_latest f)) = Some (f2_latestDate f).

Definition V2_summary (f : V2_Fetched) : V2.Summary :=
  {| V2.issuesOpened := total_count (f2_issuesData f);
     V2.prsOpened := total_count (f2_firstPrData f);
     V2.prsMerged := total_count (f2_mergedPRs f);
     V2.commentsOnIssues := total_count (f2_commentsOnIssuesData f);
     V2.publicRepoCount := User.public_repos (f2_userData f);
     V2.totalStars := V2.sumStars (f2_repositories f);
     V2.registeredDate := JsDate.dateText (f2_registered f);
     V2.firstPRDate := JsDate.dateText (f2_firstDate f);
     V2.firstPRUrl := Item.html_url (f2_first f);
     V2.sponsoredAccounts := 3;
     V2.statUpdated := JsDate.dateText (f2_now f);
     V2.followers := User.followers (f2_userData f);
     V2.latestPRDate := JsDate.dateText (f2_latestDate f);
     V2.latestPRUrl := Item.html_url (f2_latest f) |}.

(** The requests of a successful run of the second revision, in order. *)
Definition V2_paths : list string :=
  [ V2.reposPath; V2.issuesPath; V2.firstPrPath; V2.latestPrPath;
    V2.mergedPath; V2.commentsPath; V2.userPath ].

(** The same for the first revision, which also reads one commit listing
    per repository. *)
Record V1_Fetched : Type := mkV1Fetched {
  f1_repositories : list Repo;
  f1_commits : list (list Commit);
  f1_issuesData : SearchResult;
  f1_prs : SearchResult;
  f1_first : Item.t;
  f1_mergedPRs : SearchResult;
  f1_commentsOnIssuesData : SearchResult;
  f1_userData : User.t;
  f1_registered : Z;
  f1_firstDate : Z;
  f1_now : Z }.

Definition V1_fetched (w : World) (f : V1_Fetched) : Prop :=
  responds (repo_listing w) (V1.accessToken w) V1.reposPath (f1_repositories f)
  /\ Forall2 (fun repo commitsData =>
                responds (commit_listing w) (V1.accessToken w) (V1.commitsPath repo) commitsData)
       (f1_repositories f) (f1_commits f)
  /\ responds (search w) (V1.accessToken w) V1.issuesPath (f1_issuesData f)
  /\ responds (search w) (V1.accessToken w) V1.prsPath (f1_prs f)
  /\ head (items (f1_prs f)) = Some (f1_first f)
  /\ responds (search w) (V1.accessToken w) V1.mergedPath (f1_mergedPRs f)
  /\ responds (search w) (V1.accessToken w) V1.commentsPath (f1_commentsOnIssuesData f)
  /\ responds (profile w) (V1.accessToken w) V1.userPath (f1_userData f)
  /\ Date_of_string w (User.created_at (f1_userData f)) = Some (f1_registered f)
  /\ Date_of_string w (Item.created_at (f1_first f)) = Some (f1_firstDate f)
  /\ Date_now w = Some (f1_now f).

Definition V1_summary (f : V1_Fetched) : V1.Summary :=
  {| V1.issuesOpened := total_count (f1_issuesData f);
     V1.pullRequestsOpened := total_count (f1_prs f);
     V1.pullRequestsMerged := total_count (f1_mergedPRs f);
     V1.commentsOnIssues := total_count (f1_commentsOnIssuesData f);
     V1.publicRepoCount := User.public_repos (f1_userData f);
     V1.totalStars := V1.sumStars (f1_repositories f);
     V1.totalCommits := sumZ (map (fun c => Z.of_nat (length c)) (f1_commits f));
     V1.registeredDate := JsDate.dateText (f1_registered f);
     V1.firstPullRequestDate := JsDate.dateText (f1_firstDate f);
     V1.sponsoredAccounts := 3;
     V1.statUpdated := JsDate.dateText (f1_now f);
     V1.followers := User.followers (f1_userData f) |}.

Definition V1_paths (repositories : list Repo) : list string :=
  V1.reposPath :: map V1.commitsPath repositories
  ++ [ V1.issuesPath; V1.prsPath; V1.mergedPath; V1.commentsPath; V1.userPath ].

(** A computation that only reads the world and writes console lines:
    its result and its lines do not depend on the state it starts from. *)
Definition logsOnly {A} (m : M A) : Prop :=
  exists r lines, forall st, m st = (r, logged lines st).

(** The state after [README.md] was written. *)
Definition written (content : string) (st : State) : State :=
  mkState (console st) (<["README.md" := content]> (disk st)).

(** The statements of [main] after the aggregation, inside its [try]. *)
Definition renderAndWrite (w : World) (data : option Object) : M unit :=
  bind (generateReadme w "README.md.hbs" data) (fun readmeContent =>
  bind (writeFileSync w "README.md" readmeContent) (fun _ =>
  console_log [PStr "README file updated successfully."])).

Definition topLevel (e : JsError) : LogLine := errorLine "Error updating README file:" e.

(** What [main] does once the aggregation has returned [data]: the outcome
    by cases on the template file, the engine and the output file. *)
Definition settle (w : World) (data : option Object) (st : State) : State :=
  match disk st !! "README.md.hbs" with
  | None =>
      logged [ errorLine "Error loading template:" (ENOENT "README.md.hbs");
               errorLine "Error generating README content:" (ENOENT "README.md.hbs");
               topLevel (ENOENT "README.md.hbs") ] st
  | Some templateContent =>
      match handlebars w templateContent data with
      | Throw e => logged [ errorLine "Error generating README content:" e; topLevel e ] st
      | Ok readmeContent =>
          if writable w "README.md"
          then logged [successLine] (written readmeContent st)
          else logged [topLevel (EACCES "README.md")] st
      end
  end.


(** The result of one run, as the result of another with the date stamp
    replaced. *)
Definition restamp {A} (f : A -> A) (run : Exc A * State) : Exc A * State :=
  match run with
  | (r, st) => (mapExc f r, st)
  end.

(** The disk [main] leaves, from the disk it found and the data it got
    from the aggregation. *)
Definition settledDisk (w : World) (data : option Object) (d : gmap string string)
    : gmap string string :=
  match d !! "README.md.hbs" with
  | Some templateContent =>
      match handlebars w templateContent data with
      | Ok readmeContent =>
          if writable w "README.md" then <["README.md" := readmeContent]> d else d
      | Throw _ => d
      end
  | None => d
  end.

(** * Properties *)

(** ** Calendar arithmetic *)

Section Calendar.
Import JsDate.

Lemma check_range_sound p : forall base f,
  check_range p base f = true ->
  forall i, base <= i < base + Z.pos p -> f i = true.
Proof.
  induction p as [q IH|q IH|]; simpl; intros base f H i Hi.
  - apply andb_true_iff in H as [H H3]. apply andb_true_iff in H as [H1 H2].
    rewrite Pos2Z.inj_xI in Hi.
    destruct (Z.eq_dec i base) as [->|]; [exact H1|].
    destruct (Z_lt_dec i (base + 1 + Z.pos q)).
    + apply (IH _ _ H2); lia.
    + apply (IH _ _ H3); lia.
  - apply andb_true_iff in H as [H1 H2]. rewrite Pos2Z.inj_xO in Hi.
    destruct (Z_lt_dec i (base + Z.pos q)).
    + apply (IH _ _ H1); lia.
    + apply (IH _ _ H2); lia.
  - assert (i = base) as -> by lia. exact H.
Qed.

(** The Gregorian calendar repeats every 400 years, 146097 days. *)
Lemma DayFromYear_cycle y k : DayFromYear (y + 400 * k) = DayFromYear y + 146097 * k.
Proof. unfold DayFromYear. Z.div_mod_to_equations. lia. Qed.

Lemma InLeapYear_cycle y k : InLeapYear (y + 400 * k) = InLeapYear y.
Proof.
  unfold InLeapYear.
  replace ((y + 400 * k) mod 4) with (y mod 4) by (Z.div_mod_to_equations; lia).
  replace ((y + 400 * k) mod 100) with (y mod 100) by (Z.div_mod_to_equations; lia).
  replace ((y + 400 * k) mod 400) with (y mod 400) by (Z.div_mod_to_equations; lia).
  reflexivity.
Qed.

Lemma cycle_split y : y = y mod 400 + 400 * (y / 400) /\ 0 <= y mod 400 < 400.
Proof. Z.div_mod_to_equations. lia. Qed.

Lemma DayFromYear_succ y : DayFromYear (y + 1) = DayFromYear y + DaysInYear y.
Proof.
  assert (Hc : check_range 400 0
            (fun r => DayFromYear (r + 1) =? DayFromYear r + DaysInYear r) = true)
    by (vm_compute; reflexivity).
  destruct (cycle_split y) as [Hy Hr].
  pose proof (check_range_sound _ _ _ Hc (y mod 400) ltac:(lia)) as H.
  cbv beta in H. apply Z.eqb_eq in H.
  rewrite Hy at 1 2 3.
  replace (y mod 400 + 400 * (y / 400) + 1) with (y mod 400 + 1 + 400 * (y / 400)) by lia.
  unfold DaysInYear in *. rewrite !DayFromYear_cycle, InLeapYear_cycle. lia.
Qed.

Lemma DaysInYear_pos y : 365 <= DaysInYear y <= 366.
Proof. unfold DaysInYear. destruct (InLeapYear y); lia. Qed.

Lemma DayFromYear_grows y n : 0 <= n -> DayFromYear y + 365 * n <= DayFromYear (y + n).
Proof.
  intros Hn. pattern n. apply natlike_ind; [| |exact Hn].
  - replace (y + 0) with y by lia. lia.
  - intros x Hx IH. replace (y + Z.succ x) with (y + x + 1) by lia.
    rewrite DayFromYear_succ. pose proof (DaysInYear_pos (y + x)). lia.
Qed.

Lemma DayFromYear_mono y1 y2 : y1 <= y2 -> DayFromYear y1 <= DayFromYear y2.
Proof.
  intros H. pose proof (DayFromYear_grows y1 (y2 - y1) ltac:(lia)) as G.
  replace (y1 + (y2 - y1)) with y2 in G by lia. lia.
Qed.

(** The first day of a year is never more than two days off the mean
    Gregorian year. *)
Lemma DayFromYear_mean y :
  -1000 <= 400 * DayFromYear y - 146097 * (y - 1970) <= 1000.
Proof.
  assert (Hc : check_range 400 0
            (fun r => let e := 400 * DayFromYear r - 146097 * (r - 1970) in
                      (-1000 <=? e) && (e <=? 1000)) = true)
    by (vm_compute; reflexivity).
  destruct (cycle_split y) as [Hy Hr].
  pose proof (check_range_sound _ _ _ Hc (y mod 400) ltac:(lia)) as H.
  cbv beta zeta in H. apply andb_true_iff in H as [H1 H2].
  apply Z.leb_le in H1. apply Z.leb_le in H2.
  rewrite Hy at 1 3. rewrite DayFromYear_cycle. lia.
Qed.

(** [YearFromDay] is the year of the standard: the one whose first day is
    the last not after [d]. *)
Lemma YearFromDay_spec d :
  DayFromYear (YearFromDay d) <= d < DayFromYear (YearFromDay d + 1).
Proof.
  unfold YearFromDay.
  set (y0 := 1970 + d * 400 / 146097).
  assert (Hy0 : 146097 * (y0 - 1970) <= 400 * d < 146097 * (y0 - 1970) + 146097)
    by (subst y0; Z.div_mod_to_equations; lia).
  pose proof (DayFromYear_mean (y0 - 1)) as Hl.
  pose proof (DayFromYear_mean (y0 + 1 + 1)) as Hu.
  destruct (Z.ltb_spec d (DayFromYear y0)).
  - replace (y0 - 1 + 1) with y0 by lia. lia.
  - destruct (Z.leb_spec (DayFromYear (y0 + 1)) d); lia.
Qed.

Lemma YearFromDay_unique d y :
  DayFromYear y <= d < DayFromYear (y + 1) -> YearFromDay d = y.
Proof.
  intros H. pose proof (YearFromDay_spec d) as S.
  destruct (Z_lt_ge_dec (YearFromDay d) y) as [Hlt|Hge].
  - pose proof (DayFromYear_mono (YearFromDay d + 1) y ltac:(lia)). lia.
  - destruct (Z.eq_dec (YearFromDay d) y) as [|Hne]; [assumption|].
    pose proof (DayFromYear_mono (y + 1) (YearFromDay d) ltac:(lia)). lia.
Qed.

(** The day within the year of a date of month [m] lies in that month. *)
Lemma monthOfYearDay_monthStart leap m dt :
  0 <= m <= 11 ->
  1 <= dt <= monthStart leap (m + 1) - monthStart leap m ->
  monthOfYearDay leap (monthStart leap m + dt - 1) = m.
Proof.
  intros Hm Hd.
  assert (Hc : forallb (fun l => check_range 12 0 (fun m => check_range 31 1 (fun dt =>
            implb (dt <=? monthStart l (m + 1) - monthStart l m)
                  (monthOfYearDay l (monthStart l m + dt - 1) =? m))))
            [true; false] = true) by (vm_compute; reflexivity).
  assert (Hl : forall l, check_range 12 0 (fun m => check_range 31 1 (fun dt =>
            implb (dt <=? monthStart l (m + 1) - monthStart l m)
                  (monthOfYearDay l (monthStart l m + dt - 1) =? m))) = true).
  { intros [|]; cbn [forallb] in Hc; repeat (apply andb_true_iff in Hc as [? Hc]); assumption. }
  pose proof (check_range_sound _ _ _ (Hl leap) m ltac:(lia)) as H1. cbv beta in H1.
  assert (Hdt : dt <= 31).
  { assert (Hb : forallb (fun l => check_range 12 0 (fun m =>
              monthStart l (m + 1) - monthStart l m <=? 31)) [true; false] = true)
      by (vm_compute; reflexivity).
    assert (Hbl : check_range 12 0 (fun m =>
              monthStart leap (m + 1) - monthStart leap m <=? 31) = true).
    { destruct leap; cbn [forallb] in Hb; repeat (apply andb_true_iff in Hb as [? Hb]); assumption. }
    pose proof (check_range_sound _ _ _ Hbl m ltac:(lia)) as H2. cbv beta in H2.
    apply Z.leb_le in H2. lia. }
  pose proof (check_range_sound _ _ _ H1 dt ltac:(lia)) as H3. cbv beta in H3.
  replace (dt <=? monthStart leap (m + 1) - monthStart leap m) with true in H3
    by (symmetry; apply Z.leb_le; lia).
  cbn [implb] in H3. apply Z.eqb_eq in H3. exact H3.
Qed.

Lemma monthStart_bounds leap m :
  0 <= m <= 11 ->
  0 <= monthStart leap m /\ monthStart leap (m + 1) <= (if leap then 366 else 365).
Proof.
  intros Hm.
  assert (Hc : forallb (fun l => check_range 12 0 (fun m =>
            (0 <=? monthStart l m)
            && (monthStart l (m + 1) <=? (if l then 366 else 365)))) [true; false] = true)
    by (vm_compute; reflexivity).
  assert (Hl : check_range 12 0 (fun m =>
            (0 <=? monthStart leap m)
            && (monthStart leap (m + 1) <=? (if leap then 366 else 365))) = true).
  { destruct leap; cbn [forallb] in Hc; repeat (apply andb_true_iff in Hc as [? Hc]); assumption. }
  pose proof (check_range_sound _ _ _ Hl m ltac:(lia)) as H. cbv beta in H.
  apply andb_true_iff in H as [H1 H2]. apply Z.leb_le in H1. apply Z.leb_le in H2. lia.
Qed.

(** Year, month and date of the day [MakeDay] builds from a real date. *)
Lemma MakeDay_fields y m dt :
  0 <= m <= 11 -> 1 <= dt <= DaysInMonth y m ->
  let d := MakeDay y m dt in
  YearFromDay d = y
  /\ d - DayFromYear y = monthStart (InLeapYear y) m + dt - 1.
Proof.
  intros Hm Hd d. subst d. unfold MakeDay, DaysInMonth in *.
  replace (m / 12) with 0 by (Z.div_mod_to_equations; lia).
  replace (m mod 12) with m by (Z.div_mod_to_equations; lia).
  rewrite Z.add_0_r. split; [|lia].
  apply YearFromDay_unique. rewrite DayFromYear_succ.
  pose proof (monthStart_bounds (InLeapYear y) m Hm) as B.
  unfold DaysInYear. destruct (InLeapYear y); lia.
Qed.

(** A time value built from a real date and a time of day reads back as
    that date. *)
Lemma date_of_MakeDate y m dt time :
  0 <= m <= 11 -> 1 <= dt <= DaysInMonth y m -> 0 <= time < msPerDay ->
  let t := MakeDate (MakeDay y m dt) time in
  YearFromTime t = y /\ MonthFromTime t = m /\ DateFromTime t = dt.
Proof.
  intros Hm Hd Ht t.
  assert (HD : Day t = MakeDay y m dt).
  { subst t. unfold Day, MakeDate, msPerDay in *. Z.div_mod_to_equations. lia. }
  destruct (MakeDay_fields y m dt Hm Hd) as [Hy Hw].
  assert (HY : YearFromTime t = y) by (unfold YearFromTime; rewrite HD; exact Hy).
  assert (HM : MonthFromTime t = m).
  { unfold MonthFromTime, DayWithinYear. rewrite HY, HD, Hw.
    apply monthOfYearDay_monthStart; [exact Hm|exact Hd]. }
  split; [exact HY|]. split; [exact HM|].
  unfold DateFromTime, DayWithinYear. rewrite HM, HY, HD. lia.
Qed.


End Calendar.

(** ** Decimal fields and the date format *)

Lemma append_String c s r : String c s +:+ r = String c (s +:+ r).
Proof. reflexivity. Qed.

Lemma append_empty r : "" +:+ r = r.
Proof. reflexivity. Qed.

Ltac str_norm := repeat (rewrite append_String || rewrite append_empty).

Section DateText.
Import JsDate.

Lemma digitValue_digitChar n : 0 <= n <= 9 -> digitValue (digitChar n) = Some n.
Proof.
intros H.
assert (Hc : check_range 10 0
          (fun k => match digitValue (digitChar k) with
                    | Some v => v =? k
                    | None => false
                    end) = true) by (vm_compute; reflexivity).
pose proof (check_range_sound _ _ _ Hc n ltac:(lia)) as E. cbv beta in E.
destruct (digitValue (digitChar n)) as [v|]; [|discriminate].
apply Z.eqb_eq in E. congruence.
Qed.

Lemma digitValue_inv c v : digitValue c = Some v -> 0 <= v <= 9 /\ digitChar v = c.
Proof.
  destruct c as [[|] [|] [|] [|] [|] [|] [|] [|]]; vm_compute; intros H;
    first [discriminate H | injection H as <-; split; [split; discriminate | reflexivity]].
Qed.

Lemma readDigits2 acc a b rest :
  0 <= a <= 9 -> 0 <= b <= 9 ->
  readDigits 2 acc (String (digitChar a) (String (digitChar b) rest))
  = Some (10 * (10 * acc + a) + b, rest).
Proof.
  intros Ha Hb. cbn [readDigits].
  rewrite (digitValue_digitChar a Ha), (digitValue_digitChar b Hb). reflexivity.
Qed.

Lemma readDigits2_inv acc s v rest :
  readDigits 2 acc s = Some (v, rest) ->
  exists a b, 0 <= a <= 9 /\ 0 <= b <= 9 /\ v = 10 * (10 * acc + a) + b
              /\ s = String (digitChar a) (String (digitChar b) rest).
Proof.
  cbn [readDigits]. destruct s as [|c1 [|c2 s]]; try discriminate.
  - destruct (digitValue c1); discriminate.
  - destruct (digitValue c1) as [a|] eqn:E1; [|discriminate].
    destruct (digitValue c2) as [b|] eqn:E2; [|discriminate].
    intros H. injection H as <- <-.
    destruct (digitValue_inv _ _ E1) as [Ha <-], (digitValue_inv _ _ E2) as [Hb <-].
    exists a, b. auto.
Qed.

Lemma pad2_digits a b :
  0 <= a <= 9 -> 0 <= b <= 9 ->
  pad2 (10 * a + b) = String (digitChar a) (String (digitChar b) "").
Proof.
  intros Ha Hb. unfold pad2.
  replace ((10 * a + b) / 10 mod 10) with a by (Z.div_mod_to_equations; lia).
  replace ((10 * a + b) mod 10) with b by (Z.div_mod_to_equations; lia).
  reflexivity.
Qed.

Lemma pad2_split n :
  0 <= n <= 99 ->
  exists a b, 0 <= a <= 9 /\ 0 <= b <= 9 /\ n = 10 * a + b
              /\ pad2 n = String (digitChar a) (String (digitChar b) "").
Proof.
  intros H. exists (n / 10), (n mod 10).
  assert (n = 10 * (n / 10) + n mod 10) as E by (Z.div_mod_to_equations; lia).
  repeat split; try (Z.div_mod_to_equations; lia).
  rewrite E at 1. apply pad2_digits; Z.div_mod_to_equations; lia.
Qed.

Lemma pad4_split n :
  0 <= n <= 9999 ->
  exists a b, 0 <= a <= 99 /\ 0 <= b <= 99 /\ n = 100 * a + b
              /\ pad4 n = pad2 a +:+ pad2 b.
Proof.
  intros H. exists (n / 100), (n mod 100).
  repeat split; try (Z.div_mod_to_equations; lia).
  unfold pad4, pad3, pad2. str_norm.
  replace (n / 100 / 10 mod 10) with (n / 1000 mod 10) by (Z.div_mod_to_equations; lia).
  replace ((n / 100) mod 10) with (n / 100 mod 10) by reflexivity.
  replace (n mod 100 / 10 mod 10) with (n / 10 mod 10) by (Z.div_mod_to_equations; lia).
  replace ((n mod 100) mod 10) with (n mod 10) by (Z.div_mod_to_equations; lia).
  reflexivity.
Qed.

Lemma readDigits2_pad2 acc n rest :
  0 <= n <= 99 -> readDigits 2 acc (pad2 n +:+ rest) = Some (100 * acc + n, rest).
Proof.
  intros H. destruct (pad2_split n H) as (a & b & Ha & Hb & -> & ->).
  str_norm. rewrite readDigits2 by assumption. f_equal. f_equal. lia.
Qed.

Lemma readDigits4_pad4 n rest :
  0 <= n <= 9999 -> readDigits 4 0 (pad4 n +:+ rest) = Some (n, rest).
Proof.
  intros H. destruct (pad4_split n H) as (a & b & Ha & Hb & -> & ->).
  destruct (pad2_split a Ha) as (a1 & a2 & ? & ? & -> & ->).
  destruct (pad2_split b Hb) as (b1 & b2 & ? & ? & -> & ->).
  str_norm. cbn [readDigits].
  rewrite !digitValue_digitChar by assumption. f_equal. f_equal. lia.
Qed.

Lemma readDigits_step k acc c r :
  readDigits (S k) acc (String c r)
  = match digitValue c with
    | Some v => readDigits k (10 * acc + v) r
    | None => None
    end.
Proof. reflexivity. Qed.

Lemma readDigits4_inv s v rest :
  readDigits 4 0 s = Some (v, rest) -> 0 <= v <= 9999 /\ s = pad4 v +:+ rest.
Proof.
  intros H.
  destruct s as [|c1 s]; [discriminate|]. rewrite readDigits_step in H.
  destruct (digitValue c1) as [a|] eqn:E1; [|discriminate].
  destruct s as [|c2 r]; [discriminate|]. rewrite readDigits_step in H.
  destruct (digitValue c2) as [b|] eqn:E2; [|discriminate].
  - 
    destruct (digitValue_inv _ _ E1) as [Ha <-], (digitValue_inv _ _ E2) as [Hb <-].
    destruct (readDigits2_inv _ _ _ _ H) as (c & d & Hc & Hd & -> & ->).
    split; [lia|].
    replace (10 * (10 * (10 * (10 * 0 + a) + b) + c) + d)
      with (100 * (10 * a + b) + (10 * c + d)) by lia.
    assert (E : pad4 (100 * (10 * a + b) + (10 * c + d))
                = pad2 (10 * a + b) +:+ pad2 (10 * c + d)).
    { destruct (pad4_split (100 * (10 * a + b) + (10 * c + d)) ltac:(lia))
        as (x & y & Hx & Hy & E & ->).
      assert (x = 10 * a + b) as -> by lia.
      assert (y = 10 * c + d) as -> by lia. reflexivity. }
    rewrite E, !pad2_digits by assumption. reflexivity.
Qed.

Lemma readDigits2_inv0 s v rest :
  readDigits 2 0 s = Some (v, rest) -> 0 <= v <= 99 /\ s = pad2 v +:+ rest.
Proof.
  intros H. destruct (readDigits2_inv _ _ _ _ H) as (a & b & Ha & Hb & -> & ->).
  split; [lia|]. replace (10 * (10 * 0 + a) + b) with (10 * a + b) by lia.
  rewrite pad2_digits by assumption. reflexivity.
Qed.

Lemma DaysInMonth_le_31 y m : 0 <= m <= 11 -> 28 <= DaysInMonth y m <= 31.
Proof.
  intros Hm. unfold DaysInMonth.
  assert (Hc : forallb (fun l => check_range 12 0 (fun m =>
            let n := monthStart l (m + 1) - monthStart l m in
            (28 <=? n) && (n <=? 31))) [true; false] = true)
    by (vm_compute; reflexivity).
  assert (Hl : check_range 12 0 (fun m =>
            let n := monthStart (InLeapYear y) (m + 1) - monthStart (InLeapYear y) m in
            (28 <=? n) && (n <=? 31)) = true).
  { destruct (InLeapYear y); cbn [forallb] in Hc;
      repeat (apply andb_true_iff in Hc as [? Hc]); assumption. }
  pose proof (check_range_sound _ _ _ Hl m ltac:(lia)) as H. cbv beta zeta in H.
  apply andb_true_iff in H as [H1 H2]. apply Z.leb_le in H1. apply Z.leb_le in H2. lia.
Qed.

(** What [isCalendarDate] accepts. *)
Lemma isCalendarDate_inv s :
  isCalendarDate s = true ->
  exists y mo d, s = ymdText y mo d /\ 0 <= y <= 9999 /\ 1 <= mo <= 12
                 /\ 1 <= d <= DaysInMonth y (mo - 1).
Proof.
  unfold isCalendarDate. intros H.
  destruct (readDigits 4 0 s) as [[y r]|] eqn:Ey; [|discriminate].
  destruct r as [|c r]; [discriminate|].
  destruct (Ascii.eqb_spec c "-") as [->|Hc];
    [|destruct c as [[|] [|] [|] [|] [|] [|] [|] [|]]; try discriminate H; exfalso; apply Hc; reflexivity].
  destruct (readDigits 2 0 r) as [[mo r1]|] eqn:Em; [|discriminate].
  destruct r1 as [|c r1]; [discriminate|].
  destruct (Ascii.eqb_spec c "-") as [->|Hc];
    [|destruct c as [[|] [|] [|] [|] [|] [|] [|] [|]]; try discriminate H; exfalso; apply Hc; reflexivity].
  destruct (readDigits 2 0 r1) as [[d r2]|] eqn:Ed; [|discriminate].
  destruct r2; [|discriminate].
  repeat (apply andb_true_iff in H as [H ?]).
  repeat match goal with
         | X : (_ <=? _) = true |- _ => apply Z.leb_le in X
         end.
  destruct (readDigits4_inv _ _ _ Ey) as [Hy ->].
  destruct (readDigits2_inv0 _ _ _ Em) as [Hmo ->].
  destruct (readDigits2_inv0 _ _ _ Ed) as [Hd ->].
  exists y, mo, d. unfold ymdText.
  repeat split; lia.
Qed.


(** A calendar-date string is an instance of the date-only form. *)
Lemma parseFormat_ymdText y mo d :
  0 <= y <= 9999 -> 1 <= mo <= 12 -> 1 <= d <= DaysInMonth y (mo - 1) ->
  parseFormat (ymdText y mo d) = Some (mkFields y mo d None NoOffset).
Proof.
  intros Hy Hmo Hd. unfold parseFormat, parseYear, ymdText.
  pose proof (DaysInMonth_le_31 y (mo - 1) ltac:(lia)).
  destruct (pad4_split y Hy) as (a & b & Ha & Hb & Ey & E4).
  destruct (pad2_split a Ha) as (a1 & a2 & ? & ? & Ea & E2).
  assert (Hlead : forall r, match pad4 y +:+ r with
                            | String "+" rest => readDigits 6 0 rest
                            | String "-" rest =>
                                match readDigits 6 0 rest with
                                | Some (y, rest') => if y =? 0 then None else Some (- y, rest')
                                | None => None
                                end
                            | _ => readDigits 4 0 (pad4 y +:+ r)
                            end = readDigits 4 0 (pad4 y +:+ r)).
  { intros r. rewrite E4, E2. str_norm.
  pose proof (digitValue_digitChar a1 ltac:(lia)) as DV.
  destruct (digitChar a1) as [[|] [|] [|] [|] [|] [|] [|] [|]];
    try reflexivity; vm_compute in DV; discriminate DV. }
rewrite Hlead, readDigits4_pad4 by assumption. str_norm.
  rewrite readDigits2_pad2 by lia. str_norm.
  replace (pad2 d) with (pad2 d +:+ "") by (unfold pad2; reflexivity).
  rewrite readDigits2_pad2 by lia.
  replace (100 * 0 + mo) with mo by lia. replace (100 * 0 + d) with d by lia.
  replace ((1 <=? mo) && (mo <=? 12) && (1 <=? d) && (d <=? DaysInMonth y (mo - 1)))
    with true; [reflexivity|].
  symmetry. repeat (apply andb_true_iff; split); apply Z.leb_le; lia.
Qed.

Lemma isoYear_pad4 y : 0 <= y <= 9999 -> isoYear y = pad4 y.
Proof.
  intros H. unfold isoYear.
  replace ((0 <=? y) && (y <=? 9999)) with true; [reflexivity|].
  symmetry. apply andb_true_iff; split; apply Z.leb_le; lia.
Qed.

(** Within the years 0 to 9999 the first ten characters of the ISO text
    are the calendar date. *)
Lemma dateText_ymd t :
  0 <= YearFromTime t <= 9999 ->
  dateText t = ymdText (YearFromTime t) (MonthFromTime t + 1) (DateFromTime t).
Proof.
  intros H. unfold dateText, isoString, isoDatePart, ymdText.
  rewrite isoYear_pad4 by assumption.
  unfold pad4, pad3, pad2, substring0. reflexivity.
Qed.

(** Outside them the year takes seven characters and the cut falls after
    the month. *)
Lemma dateText_expanded t :
  ~ (0 <= YearFromTime t <= 9999) ->
  dateText t = (if 0 <=? YearFromTime t then "+" else "-")
                 +:+ pad6 (Z.abs (YearFromTime t)) +:+ "-" +:+ pad2 (MonthFromTime t + 1).
Proof.
  intros H. unfold dateText, isoString, isoDatePart, isoYear.
  replace ((0 <=? YearFromTime t) && (YearFromTime t <=? 9999)) with false.
  - destruct (0 <=? YearFromTime t); unfold pad6, pad4, pad3, pad2, substring0; reflexivity.
  - symmetry. apply andb_false_iff.
    destruct (Z.leb_spec 0 (YearFromTime t)); [right; apply Z.leb_gt; lia | left; reflexivity].
Qed.


(** The time value of a date-only string of the years 0 to 9999 is in
    range. *)
Lemma MakeDay_range y m d :
  0 <= y <= 9999 -> 0 <= m <= 11 -> 1 <= d <= 31 ->
  -719528 <= MakeDay y m d <= 2932900.
Proof.
  intros Hy Hm Hd. unfold MakeDay.
  replace (m / 12) with 0 by (Z.div_mod_to_equations; lia).
  replace (m mod 12) with m by (Z.div_mod_to_equations; lia).
  rewrite Z.add_0_r.
  pose proof (monthStart_bounds (InLeapYear y) m Hm) as [B1 B2].
  assert (monthStart (InLeapYear y) m <= 338).
  { pose proof (DaysInMonth_le_31 y m Hm) as D. unfold DaysInMonth in D.
    destruct (InLeapYear y); lia. }
  pose proof (DayFromYear_mono 0 y ltac:(lia)) as L.
  pose proof (DayFromYear_mono y 9999 ltac:(lia)) as U.
  change (DayFromYear 0) with (-719528) in L.
  change (DayFromYear 9999) with 2932532 in U. lia.
Qed.

End DateText.

(** ** The monad *)

Section MonadLaws.
Local Open Scope js_scope.

Lemma bind_Ok {A B} (m : M A) (k : A -> M B) st a st1 :
  m st = (Ok a, st1) -> bind m k st = k a st1.
Proof. intros H. unfold bind. rewrite H. reflexivity. Qed.

Lemma bind_Throw {A B} (m : M A) (k : A -> M B) st e st1 :
  m st = (Throw e, st1) -> bind m k st = (Throw e, st1).
Proof. intros H. unfold bind. rewrite H. reflexivity. Qed.

Lemma bind_Ok_inv {A B} (m : M A) (k : A -> M B) st b st' :
  bind m k st = (Ok b, st') ->
  exists a st1, m st = (Ok a, st1) /\ k a st1 = (Ok b, st').
Proof.
  unfold bind. destruct (m st) as [[a|e] st1]; intros H; [|discriminate].
  exists a, st1. split; [reflexivity|exact H].
Qed.

Lemma bind_Throw_inv {A B} (m : M A) (k : A -> M B) st e st' :
  bind m k st = (Throw e, st') ->
  m st = (Throw e, st')
  \/ exists a st1, m st = (Ok a, st1) /\ k a st1 = (Throw e, st').
Proof.
  unfold bind. destruct (m st) as [[a|e1] st1]; intros H.
  - right. exists a, st1. split; [reflexivity|exact H].
  - left. injection H as -> ->. reflexivity.
Qed.

Lemma liftExc_run {A} (r : Exc A) st : liftExc r st = (r, st).
Proof. reflexivity. Qed.

Lemma liftExc_Ok_inv {A} (r : Exc A) st a st' :
  liftExc r st = (Ok a, st') -> r = Ok a /\ st' = st.
Proof. unfold liftExc. intros H. injection H as -> ->. auto. Qed.

Lemma ret_Ok_inv {A} (x : A) st a st' : ret x st = (Ok a, st') -> a = x /\ st' = st.
Proof. unfold ret. intros H. injection H as -> ->. auto. Qed.

Lemma logged_logged l1 l2 st : logged l2 (logged l1 st) = logged (l1 ++ l2) st.
Proof. unfold logged. cbn. rewrite <- app_assoc. reflexivity. Qed.

Lemma logged_nil st : logged [] st = st.
Proof. destruct st. unfold logged. cbn. rewrite app_nil_r. reflexivity. Qed.

Lemma console_log_run a st : console_log a st = (Ok tt, logged [mkLine Stdout a] st).
Proof. reflexivity. Qed.

Lemma console_error_run a st : console_error a st = (Ok tt, logged [mkLine Stderr a] st).
Proof. reflexivity. Qed.

End MonadLaws.

(** ** [fetchData] *)

Section FetchData.
Context {A : Type}.
Variable accessToken : option string.
Variable endpoint : Request -> Fetch A.
Variable path : string.

Lemma fetchData_run st :
  fetchData accessToken endpoint path st = (fetchOutcome accessToken endpoint path, logged [fetchLine path] st).
Proof.
  unfold fetchData, fetchOutcome, try_catch, bind, fetch, liftExc, console_log,
    requestFor, throw, ret, logged, fetchLine, wrapFetchError, statusError.
  destruct (endpoint _) as [r|e]; [|reflexivity].
  destruct (ok r), (json r); reflexivity.
Qed.

Lemma fetchOutcome_Ok a :
  fetchOutcome accessToken endpoint path = Ok a <-> responds endpoint accessToken path a.
Proof.
  unfold fetchOutcome, responds. split.
  - destruct (endpoint _) as [r|e]; [|discriminate].
    destruct (json r) as [a'|e] eqn:J; [|discriminate].
    destruct (ok r) eqn:O; [|discriminate].
    intros H. injection H as ->. exists r. auto.
  - intros (r & -> & -> & ->). reflexivity.
Qed.

Lemma fetchData_Ok_inv st a st' :
  fetchData accessToken endpoint path st = (Ok a, st') ->
  responds endpoint accessToken path a /\ st' = logged [fetchLine path] st.
Proof.
  rewrite fetchData_run. intros H. injection H as H ->.
  split; [apply fetchOutcome_Ok; exact H|reflexivity].
Qed.

Lemma fetchData_Throw_inv st e st' :
  fetchData accessToken endpoint path st = (Throw e, st') ->
  (exists cause, e = wrapFetchError path cause) /\ st' = logged [fetchLine path] st.
Proof.
  rewrite fetchData_run. unfold fetchOutcome. intros H. injection H as H ->.
  split; [|reflexivity].
  destruct (endpoint _) as [r|e0]; [|injection H as <-; eauto].
  destruct (json r); [|injection H as <-; eauto].
  destruct (ok r); [discriminate|injection H as <-; eauto].
Qed.

End FetchData.

(** ** Aggregation: when [fetchAll] succeeds *)

Lemma isoDate_Ok_inv d x : isoDate d = Ok x -> exists t, d = Some t /\ x = JsDate.dateText t.
Proof.
  unfold isoDate, toISOString. destruct d as [t|]; [|discriminate].
  intros H. injection H as <-. exists t. split; reflexivity.
Qed.

Lemma isoDate_Some t : isoDate (Some t) = Ok (JsDate.dateText t).
Proof. reflexivity. Qed.

Lemma getProp_Ok_inv {A B} (o : option A) prop (f : A -> B) b :
  getProp o prop f = Ok b -> exists a, o = Some a /\ b = f a.
Proof.
  unfold getProp. destruct o as [a|]; [|discriminate].
  intros H. injection H as <-. eauto.
Qed.

Ltac inv_bind H :=
  let a := fresh "x" in
  let st := fresh "st" in
  let H1 := fresh "Hstep" in
  apply bind_Ok_inv in H as (a & st & H1 & H); cbv beta zeta in H;
  first
    [ apply fetchData_Ok_inv in H1 as [H1 ->]
    | apply liftExc_Ok_inv in H1 as [H1 ->] ].

Lemma V2_body_Ok_inv w st s st' :
  V2.fetchAll_body w st = (Ok s, st') ->
  exists f, V2_fetched w f /\ s = V2_summary f /\ st' = logged (map fetchLine V2_paths) st.
Proof.
  unfold V2.fetchAll_body. intros H.
  repeat inv_bind H.
  apply ret_Ok_inv in H as [-> ->].
  repeat match goal with
         | X : getProp _ _ _ = Ok _ |- _ => apply getProp_Ok_inv in X as (? & ? & ->)
         | X : isoDate _ = Ok _ |- _ => apply isoDate_Ok_inv in X as (? & ? & ->)
         end.
  match goal with
  | H1 : head (items ?a) = Some ?i1, H2 : head (items ?a) = Some ?i2 |- _ =>
      rewrite H1 in H2; injection H2 as <-
  end.
  match goal with
  | H1 : head (items ?a) = Some ?i1, H2 : head (items ?a) = Some ?i2 |- _ =>
      rewrite H1 in H2; injection H2 as <-
  end.
  match goal with
  | R : responds (repo_listing w) _ _ ?repos,
    I : responds (search w) _ V2.issuesPath ?iss,
    F : responds (search w) _ V2.firstPrPath ?fst,
    HF : head (items ?fst) = Some ?first,
    L : responds (search w) _ V2.latestPrPath ?lst,
    HL : head (items ?lst) = Some ?latest,
    Mg : responds (search w) _ V2.mergedPath ?mrg,
    C : responds (search w) _ V2.commentsPath ?cmt,
    U : responds (profile w) _ _ ?usr,
    D1 : Date_of_string w (User.created_at ?usr) = Some ?t1,
    D2 : Date_of_string w (Item.created_at ?first) = Some ?t2,
    D3 : Date_now w = Some ?t3,
    D4 : Date_of_string w (Item.created_at ?latest) = Some ?t4 |- _ =>
      exists (mkV2Fetched repos iss fst first lst latest mrg cmt usr t1 t2 t3 t4);
      split; [unfold V2_fetched; cbn; tauto|]
  end.
  split; [reflexivity|].
  rewrite !logged_logged. reflexivity.
Qed.

Lemma fetchData_responds {A} tok (endpoint : Request -> Fetch A) path a st :
  responds endpoint tok path a ->
  fetchData tok endpoint path st = (Ok a, logged [fetchLine path] st).
Proof.
  intros R. rewrite fetchData_run. f_equal. apply fetchOutcome_Ok. exact R.
Qed.

Ltac run_bind :=
  first
    [ erewrite bind_Ok by (apply fetchData_responds; eassumption)
    | erewrite bind_Ok by (rewrite liftExc_run; f_equal; eassumption)
    | erewrite bind_Ok by (rewrite liftExc_run; reflexivity) ];
  cbv beta zeta.

Lemma V2_body_fetched w f st :
  V2_fetched w f ->
  V2.fetchAll_body w st = (Ok (V2_summary f), logged (map fetchLine V2_paths) st).
Proof.
  intros (R & I & F & HF & L & HL & Mg & C & U & D1 & D2 & D3 & D4).
  unfold V2.fetchAll_body.
  do 3 run_bind. rewrite HF. cbn [getProp]. do 3 run_bind.
  rewrite HL. cbn [getProp]. do 5 run_bind.
  rewrite D1, D2, D3, D4, !isoDate_Some. do 4 run_bind.
  unfold ret. rewrite !logged_logged. reflexivity.
Qed.

(** The aggregation of the second revision succeeds exactly when every
    request is answered with a success and JSON, both pull-request searches
    have a first item, and every date parses. *)
Lemma V2_body_Ok_iff w st s st' :
  V2.fetchAll_body w st = (Ok s, st') <->
  exists f, V2_fetched w f /\ s = V2_summary f /\ st' = logged (map fetchLine V2_paths) st.
Proof.
  split; [apply V2_body_Ok_inv|].
  intros (f & Hf & -> & ->). apply V2_body_fetched. exact Hf.
Qed.

Lemma V2_fetchAll_Ok_iff w st s st' :
  V2.fetchAll w st = (Ok s, st') <-> V2.fetchAll_body w st = (Ok s, st').
Proof.
  unfold V2.fetchAll, try_catch.
  destruct (V2.fetchAll_body w st) as [[a|e] st1]; [tauto|].
  cbn. split; discriminate.
Qed.

Lemma V2_fetchAll_Throw_inv w st e st' :
  V2.fetchAll w st = (Throw e, st') ->
  exists inner st1,
    V2.fetchAll_body w st = (Throw inner, st1)
    /\ e = mkError "Error" (errorToString inner) (Some inner)
    /\ st' = logged [errorLine "Error fetching data:" inner] st1.
Proof.
  unfold V2.fetchAll, try_catch.
  destruct (V2.fetchAll_body w st) as [[a|inner] st1]; [discriminate|].
  cbn. intros H. injection H as <- <-. exists inner, st1. auto.
Qed.

Lemma countCommits_Ok_inv w repositories : forall acc st total st',
  V1.countCommits w repositories acc st = (Ok total, st') ->
  exists commits,
    Forall2 (fun repo commitsData =>
               responds (commit_listing w) (V1.accessToken w) (V1.commitsPath repo) commitsData)
      repositories commits
    /\ total = acc + sumZ (map (fun c => Z.of_nat (length c)) commits)
    /\ st' = logged (map fetchLine (map V1.commitsPath repositories)) st.
Proof.
  induction repositories as [|repo rest IH]; intros acc st total st' H; cbn in H.
  - apply ret_Ok_inv in H as [-> ->]. exists []. cbn.
    split; [constructor|]. split; [lia|]. symmetry. apply logged_nil.
  - inv_bind H. apply IH in H as (commits & F & -> & ->).
    exists (x :: commits). split; [constructor; assumption|].
    split; [unfold sumZ; cbn [map fold_right]; lia|]. rewrite logged_logged. reflexivity.
Qed.

Lemma countCommits_fetched w repositories : forall commits acc st,
  Forall2 (fun repo commitsData =>
             responds (commit_listing w) (V1.accessToken w) (V1.commitsPath repo) commitsData)
    repositories commits ->
  V1.countCommits w repositories acc st
  = (Ok (acc + sumZ (map (fun c => Z.of_nat (length c)) commits)),
     logged (map fetchLine (map V1.commitsPath repositories)) st).
Proof.
  induction repositories as [|repo rest IH]; intros commits acc st F; inversion F; subst; cbn.
  - unfold ret. rewrite logged_nil. f_equal. f_equal. unfold sumZ; cbn [map fold_right]. lia.
  - run_bind. erewrite IH by eassumption. rewrite logged_logged. cbn [map app].
    f_equal. f_equal. unfold sumZ; cbn [map fold_right]. lia.
Qed.

Lemma V1_body_Ok_inv w st s st' :
  V1.fetchAll_body w st = (Ok s, st') ->
  exists f, V1_fetched w f /\ s = V1_summary f
            /\ st' = logged (map fetchLine (V1_paths (f1_repositories f))) st.
Proof.
  unfold V1.fetchAll_body. intros H.
  inv_bind H.
  apply bind_Ok_inv in H as (total & st1 & HC & H). cbv beta zeta in H.
  apply countCommits_Ok_inv in HC as (commits & HF2 & -> & ->).
  repeat inv_bind H.
  apply ret_Ok_inv in H as [-> ->].
  repeat match goal with
         | X : getProp _ _ _ = Ok _ |- _ => apply getProp_Ok_inv in X as (? & ? & ->)
         | X : isoDate _ = Ok _ |- _ => apply isoDate_Ok_inv in X as (? & ? & ->)
         end.
  match goal with
  | R : responds (repo_listing w) _ _ ?repos,
    I : responds (search w) _ V1.issuesPath ?iss,
    F : responds (search w) _ V1.prsPath ?prs,
    HF : head (items ?prs) = Some ?first,
    Mg : responds (search w) _ V1.mergedPath ?mrg,
    C : responds (search w) _ V1.commentsPath ?cmt,
    U : responds (profile w) _ _ ?usr,
    D1 : Date_of_string w (User.created_at ?usr) = Some ?t1,
    D2 : Date_of_string w (Item.created_at ?first) = Some ?t2,
    D3 : Date_now w = Some ?t3 |- _ =>
      exists (mkV1Fetched repos commits iss prs first mrg cmt usr t1 t2 t3);
      split; [unfold V1_fetched; cbn; tauto|]
  end.
  split; [cbn; unfold V1_summary; cbn; f_equal|].
  unfold V1_paths. cbn [f1_repositories]. rewrite !logged_logged.
  f_equal. cbn [map app]. rewrite ?map_app. cbn [map app]. rewrite <- ?app_assoc. reflexivity.
Qed.

Lemma V1_body_fetched w f st :
  V1_fetched w f ->
  V1.fetchAll_body w st
  = (Ok (V1_summary f), logged (map fetchLine (V1_paths (f1_repositories f))) st).
Proof.
  intros (R & F2 & I & F & HF & Mg & C & U & D1 & D2 & D3).
  unfold V1.fetchAll_body.
  run_bind. erewrite bind_Ok by (apply countCommits_fetched; eassumption). cbv beta zeta.
  do 2 run_bind. rewrite HF. cbn [getProp]. do 4 run_bind.
  rewrite D1, D2, D3, !isoDate_Some. do 3 run_bind.
  unfold ret, V1_paths. rewrite !logged_logged.
  f_equal. cbn [map app]. rewrite ?map_app. cbn [map app]. rewrite <- ?app_assoc. reflexivity.
Qed.

Lemma V1_body_Ok_iff w st s st' :
  V1.fetchAll_body w st = (Ok s, st') <->
  exists f, V1_fetched w f /\ s = V1_summary f
            /\ st' = logged (map fetchLine (V1_paths (f1_repositories f))) st.
Proof.
  split; [apply V1_body_Ok_inv|].
  intros (f & Hf & -> & ->). apply V1_body_fetched. exact Hf.
Qed.

Lemma V1_fetchAll_Some_iff w st s st' :
  V1.fetchAll w st = (Ok (Some s), st') <-> V1.fetchAll_body w st = (Ok s, st').
Proof.
  unfold V1.fetchAll, try_catch, bind, ret, console_error.
  destruct (V1.fetchAll_body w st) as [[a|e] st1]; cbn.
  - split; intros H; injection H as -> ->; reflexivity.
  - split; discriminate.
Qed.

(** ** Template loading, rendering and the entry point *)

Lemma loadTemplate_run p st :
  loadTemplate p st
  = match disk st !! p with
    | Some templateContent => (Ok templateContent, st)
    | None => (Throw (ENOENT p), logged [errorLine "Error loading template:" (ENOENT p)] st)
    end.
Proof.
  unfold loadTemplate, try_catch, bind, readFileSync, ret, throw, console_error.
  destruct (disk st !! p); reflexivity.
Qed.

Lemma generateReadme_run w p data st :
  generateReadme w p data st
  = match disk st !! p with
    | None =>
        (Throw (ENOENT p),
         logged [ errorLine "Error loading template:" (ENOENT p);
                  errorLine "Error generating README content:" (ENOENT p) ] st)
    | Some templateContent =>
        match handlebars w templateContent data with
        | Ok readmeContent => (Ok readmeContent, st)
        | Throw e => (Throw e, logged [errorLine "Error generating README content:" e] st)
        end
    end.
Proof.
  unfold generateReadme, try_catch, bind. rewrite loadTemplate_run.
  destruct (disk st !! p) as [t|].
  - unfold liftExc, ret. destruct (handlebars w t data); reflexivity.
  - unfold console_error, throw, logged, errorLine. cbn. rewrite <- app_assoc. reflexivity.
Qed.

Lemma renderAndWrite_settle w data st :
  try_catch (renderAndWrite w data) (fun error => console_error [PStr "Error updating README file:"; PErr error]) st
  = (Ok tt, settle w data st).
Proof.
  unfold try_catch, renderAndWrite, settle, bind. rewrite generateReadme_run.
  destruct (disk st !! "README.md.hbs") as [t|].
  - destruct (handlebars w t data) as [out|e].
    + unfold writeFileSync. destruct (writable w "README.md"); reflexivity.
    + unfold console_error, logged, topLevel, errorLine. cbn. rewrite <- app_assoc. reflexivity.
  - unfold console_error, logged, topLevel, errorLine. cbn. rewrite <- app_assoc. reflexivity.
Qed.

(** [main] of the second revision, by cases on the aggregation. *)
Lemma V2_main_run w st :
  V2.main w st
  = match V2.fetchAll w st with
    | (Ok s, st1) => (Ok tt, settle w (Some (V2.toObject s)) st1)
    | (Throw e, st1) => (Ok tt, logged [topLevel e] st1)
    end.
Proof.
  pose proof (renderAndWrite_settle w) as R.
  unfold V2.main, try_catch, bind in *. unfold renderAndWrite, bind in R.
  destruct (V2.fetchAll w st) as [[s|e] st1]; [|reflexivity].
  apply R.
Qed.

(** [main] of the first revision: the aggregation never throws, and
    [undefined] goes to the template like a summary does. *)
Lemma V1_main_run w st :
  V1.main w st
  = match V1.fetchAll w st with
    | (Ok data, st1) => (Ok tt, settle w (option_map V1.toObject data) st1)
    | (Throw e, st1) => (Ok tt, logged [topLevel e] st1)
    end.
Proof.
  pose proof (renderAndWrite_settle w) as R.
  unfold V1.main, try_catch, bind in *. unfold renderAndWrite, bind in R.
  destruct (V1.fetchAll w st) as [[s|e] st1]; [|reflexivity].
  apply R.
Qed.

(** ** Computations that only log *)

Section LogsOnly.
Local Open Scope js_scope.

Lemma logsOnly_ret {A} (a : A) : logsOnly (ret a).
Proof. exists (Ok a), []. intros st. rewrite logged_nil. reflexivity. Qed.

Lemma logsOnly_throw {A} e : logsOnly (@throw A e).
Proof. exists (Throw e), []. intros st. rewrite logged_nil. reflexivity. Qed.

Lemma logsOnly_liftExc {A} (r : Exc A) : logsOnly (liftExc r).
Proof. exists r, []. intros st. rewrite logged_nil. reflexivity. Qed.

Lemma logsOnly_console_error a : logsOnly (console_error a).
Proof. exists (Ok tt), [mkLine Stderr a]. intros st. reflexivity. Qed.

Lemma logsOnly_fetchData {A} tok (endpoint : Request -> Fetch A) path :
  logsOnly (fetchData tok endpoint path).
Proof.
  exists (fetchOutcome tok endpoint path), [fetchLine path]. intros st. apply fetchData_run.
Qed.

Lemma logsOnly_bind {A B} (m : M A) (k : A -> M B) :
  logsOnly m -> (forall a, logsOnly (k a)) -> logsOnly (bind m k).
Proof.
  intros (r & l & Hm) Hk. destruct r as [a|e].
  - destruct (Hk a) as (r' & l' & Hka). exists r', (l ++ l')%list. intros st.
    unfold bind. rewrite Hm, Hka, logged_logged. reflexivity.
  - exists (Throw e), l. intros st. unfold bind. rewrite Hm. reflexivity.
Qed.

Lemma logsOnly_try_catch {A} (m : M A) (h : JsError -> M A) :
  logsOnly m -> (forall e, logsOnly (h e)) -> logsOnly (try_catch m h).
Proof.
  intros (r & l & Hm) Hh. destruct r as [a|e].
  - exists (Ok a), l. intros st. unfold try_catch. rewrite Hm. reflexivity.
  - destruct (Hh e) as (r' & l' & Hhe). exists r', (l ++ l')%list. intros st.
    unfold try_catch. rewrite Hm, Hhe, logged_logged. reflexivity.
Qed.

Lemma logsOnly_countCommits w repositories : forall acc,
  logsOnly (V1.countCommits w repositories acc).
Proof.
  induction repositories as [|repo rest IH]; intros acc; cbn.
  - apply logsOnly_ret.
  - apply logsOnly_bind; [apply logsOnly_fetchData|]. intros a. apply IH.
Qed.

Ltac logs_only :=
  repeat first
    [ apply logsOnly_ret | apply logsOnly_throw | apply logsOnly_liftExc
    | apply logsOnly_console_error | apply logsOnly_fetchData
    | apply logsOnly_countCommits
    | apply logsOnly_bind; [|intros ?]
    | apply logsOnly_try_catch; [|intros ?] ].

Lemma logsOnly_V1_fetchAll w : logsOnly (V1.fetchAll w).
Proof. unfold V1.fetchAll, V1.fetchAll_body. logs_only. Qed.

Lemma logsOnly_V2_fetchAll w : logsOnly (V2.fetchAll w).
Proof. unfold V2.fetchAll, V2.fetchAll_body. logs_only. Qed.

End LogsOnly.

(** ** The clock *)

Section Clock.
Local Open Scope js_scope.

Lemma bind_fetchData {A B} tok (endpoint : Request -> Fetch A) path (k : A -> M B) st :
  bind (fetchData tok endpoint path) k st
  = match fetchOutcome tok endpoint path with
    | Ok a => k a (logged [fetchLine path] st)
    | Throw e => (Throw e, logged [fetchLine path] st)
    end.
Proof. unfold bind. rewrite fetchData_run. reflexivity. Qed.

Lemma bind_liftExc {A B} (r : Exc A) (k : A -> M B) st :
  bind (liftExc r) k st
  = match r with
    | Ok a => k a st
    | Throw e => (Throw e, st)
    end.
Proof. unfold bind, liftExc. destruct r; reflexivity. Qed.

Lemma TimeClip_valid t : Z.abs t <= 8640000000000000 -> JsDate.TimeClip t = Some t.
Proof.
  intros H. unfold JsDate.TimeClip.
  destruct (Z.leb_spec (Z.abs t) 8640000000000000); [reflexivity|lia].
Qed.


Lemma countCommits_atTime w t repositories : forall acc st,
  V1.countCommits (atTime w t) repositories acc st = V1.countCommits w repositories acc st.
Proof.
  induction repositories as [|repo rest IH]; intros acc st; cbn [V1.countCommits].
  - reflexivity.
  - unfold bind. change (V1.accessToken (atTime w t)) with (V1.accessToken w).
    change (commit_listing (atTime w t)) with (commit_listing w).
    destruct (fetchData _ _ _ st) as [[a|e] st1]; [apply IH|reflexivity].
Qed.

Lemma bind_unfold {A B} (m : M A) (k : A -> M B) st :
  bind m k st
  = match m st with
    | (Ok a, st1) => k a st1
    | (Throw e, st1) => (Throw e, st1)
    end.
Proof. reflexivity. Qed.

Lemma bind_countCommits_atTime {B} w t repositories acc (k : Z -> M B) st :
  bind (V1.countCommits (atTime w t) repositories acc) k st
  = bind (V1.countCommits w repositories acc) k st.
Proof. unfold bind. rewrite countCommits_atTime. reflexivity. Qed.

Ltac same_step :=
  rewrite ?bind_fetchData, ?bind_liftExc; cbv beta zeta;
  match goal with
  | |- context [match ?x with Ok _ => _ | Throw _ => _ end] =>
      destruct x; try reflexivity
  end.

Lemma V2_body_restamp w t1 t2 st :
  Z.abs t1 <= 8640000000000000 -> Z.abs t2 <= 8640000000000000 ->
  V2.fetchAll_body (atTime w t2) st
  = restamp (V2_setStatUpdated (JsDate.dateText t2)) (V2.fetchAll_body (atTime w t1) st).
Proof.
  intros H1 H2. unfold restamp, V2.fetchAll_body, Date_now, Date_of_string.
  change (V2.accessToken (atTime w t1)) with (V2.accessToken w).
  change (V2.accessToken (atTime w t2)) with (V2.accessToken w).
  cbn [atTime repo_listing search profile host now].
  rewrite !TimeClip_valid by assumption. rewrite !isoDate_Some.
  repeat same_step.
Qed.

Lemma V2_fetchAll_restamp w t1 t2 st :
  Z.abs t1 <= 8640000000000000 -> Z.abs t2 <= 8640000000000000 ->
  V2.fetchAll (atTime w t2) st
  = restamp (V2_setStatUpdated (JsDate.dateText t2)) (V2.fetchAll (atTime w t1) st).
Proof.
  intros H1 H2. unfold V2.fetchAll, try_catch.
  rewrite (V2_body_restamp w t1 t2 st H1 H2). unfold restamp.
  destruct (V2.fetchAll_body (atTime w t1) st) as [[s|e] st1]; reflexivity.
Qed.

Lemma V1_body_restamp w t1 t2 st :
  Z.abs t1 <= 8640000000000000 -> Z.abs t2 <= 8640000000000000 ->
  V1.fetchAll_body (atTime w t2) st
  = restamp (V1_setStatUpdated (JsDate.dateText t2)) (V1.fetchAll_body (atTime w t1) st).
Proof.
  intros H1 H2. unfold restamp, V1.fetchAll_body, Date_now, Date_of_string.
  change (V1.accessToken (atTime w t1)) with (V1.accessToken w).
  change (V1.accessToken (atTime w t2)) with (V1.accessToken w).
  cbn [atTime repo_listing search profile host now].
  rewrite !TimeClip_valid by assumption. rewrite !isoDate_Some.
  same_step.
  rewrite !bind_countCommits_atTime.
  rewrite !(bind_unfold (V1.countCommits w _ 0)).
  destruct (V1.countCommits w _ 0 _) as [[total|e] st1]; [|reflexivity].
  repeat same_step.
Qed.

Lemma V1_fetchAll_restamp w t1 t2 st :
  Z.abs t1 <= 8640000000000000 -> Z.abs t2 <= 8640000000000000 ->
  V1.fetchAll (atTime w t2) st
  = restamp (option_map (V1_setStatUpdated (JsDate.dateText t2)))
      (V1.fetchAll (atTime w t1) st).
Proof.
  intros H1 H2. unfold V1.fetchAll, try_catch, bind.
  rewrite (V1_body_restamp w t1 t2 st H1 H2). unfold restamp.
  destruct (V1.fetchAll_body (atTime w t1) st) as [[s|e] st1]; reflexivity.
Qed.

Lemma settle_atTime w t data st : settle (atTime w t) data st = settle w data st.
Proof. reflexivity. Qed.

End Clock.

(** ** Sums and dates of the summary *)

Lemma fold_left_add_sumZ {A} (f : A -> Z) (l : list A) : forall acc,
  fold_left (fun total x => total + f x) l acc = acc + sumZ (map f l).
Proof.
  induction l as [|x l IH]; intros acc; cbn [fold_left map].
  - unfold sumZ. cbn. lia.
  - rewrite IH. unfold sumZ. cbn [fold_right]. lia.
Qed.

Lemma V1_sumStars_sum repositories :
  V1.sumStars repositories = sumZ (map stargazers_count repositories).
Proof. unfold V1.sumStars. rewrite fold_left_add_sumZ. lia. Qed.

Lemma V2_sumStars_fold repositories : forall acc,
  fold_left
    (fun totalStars repo =>
       if negb (private repo) then totalStars + stargazers_count repo else totalStars)
    repositories acc
  = acc + sumZ (map stargazers_count
                  (List.filter (fun repo => negb (private repo)) repositories)).
Proof.
  induction repositories as [|repo rest IH]; intros acc; cbn [fold_left List.filter].
  - unfold sumZ. cbn. lia.
  - rewrite IH. destruct (negb (private repo)); unfold sumZ; cbn [map fold_right]; lia.
Qed.

Lemma V2_sumStars_sum repositories :
  V2.sumStars repositories
  = sumZ (map stargazers_count (List.filter (fun repo => negb (private repo)) repositories)).
Proof. unfold V2.sumStars. rewrite V2_sumStars_fold. lia. Qed.



(** A calendar-date string parses to midnight UTC of that date. *)
Lemma parse_ymdText h y mo d :
  0 <= y <= 9999 -> 1 <= mo <= 12 -> 1 <= d <= JsDate.DaysInMonth y (mo - 1) ->
  JsDate.parse h (JsDate.ymdText y mo d)
  = Some (JsDate.MakeDate (JsDate.MakeDay y (mo - 1) d) 0).
Proof.
  intros Hy Hmo Hd. unfold JsDate.parse.
  rewrite parseFormat_ymdText by assumption.
  unfold JsDate.timeOfFields. cbn [JsDate.f_time JsDate.f_year JsDate.f_month JsDate.f_day].
  apply TimeClip_valid.
  pose proof (DaysInMonth_le_31 y (mo - 1) ltac:(lia)).
  pose proof (MakeDay_range y (mo - 1) d Hy ltac:(lia) ltac:(lia)).
  unfold JsDate.MakeDate, JsDate.msPerDay. lia.
Qed.

(** * The claims *)

(** C1. The entry point of the first revision writes the output file after
    a failed fetch: with the network down, [fetchAll] logs the error and
    returns [undefined], the template is rendered with every placeholder
    empty, and [README.md], which held the previous statistics, is
    overwritten and reported as updated. *)
Theorem V1_main_overwrites_after_failed_fetch :
  fetchOutcome (V1.accessToken Sample.offline) (repo_listing Sample.offline) V1.reposPath
  = Throw (wrapFetchError V1.reposPath (mkError "TypeError" "fetch failed" None))
  /\ fst (V1.fetchAll Sample.offline Sample.start) = Ok None
  /\ disk Sample.start !! "README.md" = Some "Stars: 6"
  /\ disk (snd (V1.main Sample.offline Sample.start)) !! "README.md"
     = Some "Stars: , joined , updated "
  /\ last (console (snd (V1.main Sample.offline Sample.start))) = Some successLine.
Proof. repeat split; vm_compute; reflexivity. Qed.

(** C2. [fetchAll] of the first revision does not surface a failed fetch
    to its caller: when the last request, the user profile, is answered
    401, the call returns normally with [undefined]. *)
Theorem V1_fetchAll_swallows_failed_fetch :
  fetchOutcome (V1.accessToken Sample.unauthorized) (profile Sample.unauthorized) V1.userPath
  = Throw (wrapFetchError V1.userPath (mkError "Error" "401 Unauthorized" None))
  /\ fst (V1.fetchAll Sample.unauthorized Sample.start) = Ok None
  /\ last (console (snd (V1.fetchAll Sample.unauthorized Sample.start)))
     = Some (errorLine "Something went wrong:"
               (wrapFetchError V1.userPath (mkError "Error" "401 Unauthorized" None))).
Proof. repeat split; vm_compute; reflexivity. Qed.



(** C4, as stated, fails: a response with a successful status whose body
    is not JSON makes [fetchData] throw. *)
Lemma fetchData_throws_on_success_status :
  (exists r, Sample.htmlBody (requestFor None "user") = Ok r /\ ok r = true)
  /\ fst (fetchData None Sample.htmlBody "user" Sample.start)
     = Throw (wrapFetchError "user" (mkError "SyntaxError" "Unexpected token '<'" None)).
Proof. split; [eexists; split; reflexivity|reflexivity]. Qed.

(** C4, amended. [fetchData] throws when the network call fails, when the
    body of the response is not JSON, and when the status is not a success;
    the error it throws names the path and has the error it caught as its
    cause.  Otherwise it returns the parsed body. *)
Theorem fetchData_outcome {A} tok (endpoint : Request -> Fetch A) path st :
  (forall e, endpoint (requestFor tok path) = Throw e ->
     fst (fetchData tok endpoint path st) = Throw (wrapFetchError path e))
  /\ (forall r e, endpoint (requestFor tok path) = Ok r -> json r = Throw e ->
        fst (fetchData tok endpoint path st) = Throw (wrapFetchError path e))
  /\ (forall r a, endpoint (requestFor tok path) = Ok r -> json r = Ok a -> ok r = false ->
        fst (fetchData tok endpoint path st) = Throw (wrapFetchError path (statusError r)))
  /\ (forall r a, endpoint (requestFor tok path) = Ok r -> json r = Ok a -> ok r = true ->
        fst (fetchData tok endpoint path st) = Ok a)
  /\ (forall cause, errorCause (wrapFetchError path cause) = Some cause).
Proof.
  rewrite fetchData_run. unfold fetchOutcome. cbn [fst].
  repeat split.
  - intros e ->. reflexivity.
  - intros r e -> ->. reflexivity.
  - intros r a -> -> ->. reflexivity.
  - intros r a -> -> ->. reflexivity.
Qed.

Lemma fetchData_outcome_witness :
  fst (fetchData (Some "s3cret") Sample.profile_endpoint V2.userPath Sample.start)
  = Ok (User.mk "2015-03-14T09:26:53Z" 2 4).
Proof.
  exact (proj1 (proj2 (proj2 (proj2
           (fetchData_outcome (Some "s3cret") Sample.profile_endpoint V2.userPath Sample.start))))
           (mkResponse true 200 "OK" (Ok (User.mk "2015-03-14T09:26:53Z" 2 4)))
           (User.mk "2015-03-14T09:26:53Z" 2 4)
           ltac:(reflexivity) ltac:(reflexivity) ltac:(reflexivity)).
Defined.

(** C5. In the first revision an empty pull-request search does not abort
    the run: the [TypeError] of [items[0].created_at] is logged inside
    [fetchAll] and goes no further, nothing is logged at the top level, and
    [README.md] is overwritten with a document without statistics. *)
Theorem V1_main_continues_after_empty_search :
  responds (search Sample.noPullRequests) (V1.accessToken Sample.noPullRequests)
    V1.prsPath (mkSearch 0 [])
  /\ fst (V1.fetchAll Sample.noPullRequests Sample.start) = Ok None
  /\ last (console (snd (V1.fetchAll Sample.noPullRequests Sample.start)))
     = Some (errorLine "Something went wrong:"
               (mkError "TypeError"
                  "Cannot read properties of undefined (reading 'created_at')" None))
  /\ List.filter (fun l => match stream l with Stderr => true | Stdout => false end)
       (console (snd (V1.main Sample.noPullRequests Sample.start)))
     = [errorLine "Something went wrong:"
          (mkError "TypeError"
             "Cannot read properties of undefined (reading 'created_at')" None)]
  /\ disk (snd (V1.main Sample.noPullRequests Sample.start)) !! "README.md"
     = Some "Stars: , joined , updated ".
Proof.
  split; [eexists; repeat split; vm_compute; reflexivity|].
  repeat split; vm_compute; reflexivity.
Qed.






(** C8. Date normalization is idempotent: a calendar-date string,
    [YYYY-MM-DD] with a month from 01 to 12 and a day of that month, parsed
    as a date and cut to the first ten characters of its ISO text, is the
    same string, on every host. *)
Theorem date_normalization_idempotent w s :
  JsDate.isCalendarDate s = true -> isoDate (Date_of_string w s) = Ok s.
Proof.
  intros H. apply isCalendarDate_inv in H as (y & mo & d & -> & Hy & Hmo & Hd).
  unfold Date_of_string. rewrite parse_ymdText by assumption.
  rewrite isoDate_Some. f_equal.
  pose proof (date_of_MakeDate y (mo - 1) d 0 ltac:(lia) Hd
                ltac:(unfold JsDate.msPerDay; lia)) as (EY & EM & ED).
  rewrite dateText_ymd by (rewrite EY; exact Hy).
  rewrite EY, EM, ED. f_equal. lia.
Qed.

Lemma date_normalization_idempotent_witness :
  isoDate (Date_of_string Sample.world "2024-02-29") = Ok "2024-02-29".
Proof.
  exact (date_normalization_idempotent Sample.world "2024-02-29" ltac:(reflexivity)).
Defined.



(** C10. Two runs on the same responses, template and host at two times
    of the clock differ in the date stamp only: the aggregation of one is the
    aggregation of the other with [statUpdated] replaced, failures included,
    and when both times fall on the same UTC date the two runs end in the
    same state, the same [README.md] byte for byte. *)
Theorem runs_differ_in_statUpdated_only w t1 t2 st :
  Z.abs t1 <= 8640000000000000 -> Z.abs t2 <= 8640000000000000 ->
  V2.fetchAll (atTime w t2) st
  = restamp (V2_setStatUpdated (JsDate.dateText t2)) (V2.fetchAll (atTime w t1) st)
  /\ V1.fetchAll (atTime w t2) st
     = restamp (option_map (V1_setStatUpdated (JsDate.dateText t2)))
         (V1.fetchAll (atTime w t1) st)
  /\ (JsDate.dateText t1 = JsDate.dateText t2 ->
      V2.main (atTime w t2) st = V2.main (atTime w t1) st
      /\ V1.main (atTime w t2) st = V1.main (atTime w t1) st).
Proof.
  intros H1 H2.
  pose proof (V2_fetchAll_restamp w t1 t2 st H1 H2) as E2.
  pose proof (V1_fetchAll_restamp w t1 t2 st H1 H2) as E1.
  pose proof (V2_fetchAll_restamp w t1 t1 st H1 H1) as S2.
  pose proof (V1_fetchAll_restamp w t1 t1 st H1 H1) as S1.
  split; [exact E2|]. split; [exact E1|].
  intros D. rewrite <- D in E2, E1. rewrite <- S2 in E2. rewrite <- S1 in E1.
  rewrite !V2_main_run, !V1_main_run, E1, E2. split; reflexivity.
Qed.

Lemma runs_differ_in_statUpdated_only_witness :
  V2.fetchAll (atTime Sample.world 0) Sample.start
  = restamp (V2_setStatUpdated (JsDate.dateText 0))
      (V2.fetchAll (atTime Sample.world Sample.noon) Sample.start)
  /\ V2.main (atTime Sample.world (Sample.noon + 1000)) Sample.start
     = V2.main (atTime Sample.world Sample.noon) Sample.start.
Proof.
  split.
  - exact (proj1 (runs_differ_in_statUpdated_only Sample.world Sample.noon 0 Sample.start
                    ltac:(vm_compute; discriminate) ltac:(vm_compute; discriminate))).
  - exact (proj1 (proj2 (proj2
             (runs_differ_in_statUpdated_only Sample.world Sample.noon (Sample.noon + 1000)
                Sample.start ltac:(vm_compute; discriminate) ltac:(vm_compute; discriminate)))
             ltac:(vm_compute; reflexivity))).
Defined.

(** * Further properties of the script *)

Lemma logsOnly_V2_body w : logsOnly (V2.fetchAll_body w).
Proof.
unfold V2.fetchAll_body.
repeat first
  [ apply logsOnly_ret | apply logsOnly_liftExc | apply logsOnly_fetchData
  | apply logsOnly_bind; [|intros ?] ].
Qed.

Lemma logsOnly_V1_body w : logsOnly (V1.fetchAll_body w).
Proof.
unfold V1.fetchAll_body.
repeat first
  [ apply logsOnly_ret | apply logsOnly_liftExc | apply logsOnly_fetchData
  | apply logsOnly_countCommits
  | apply logsOnly_bind; [|intros ?] ].
Qed.

Lemma last_two {A} (l : list A) a b : last (l ++ [a; b]) = Some b.
Proof. change (l ++ [a; b])%list with (l ++ [a] ++ [b])%list. rewrite app_assoc. apply last_snoc. Qed.

Lemma last_three {A} (l : list A) a b c : last (l ++ [a; b; c]) = Some c.
Proof.
change (l ++ [a; b; c])%list with (l ++ [a; b] ++ [c])%list. rewrite app_assoc. apply last_snoc.
Qed.

Lemma disk_logged lines st : disk (logged lines st) = disk st.
Proof. reflexivity. Qed.

Lemma console_logged lines st : console (logged lines st) = (console st ++ lines)%list.
Proof. reflexivity. Qed.

Lemma settle_disk w data st : disk (settle w data st) = settledDisk w data (disk st).
Proof.
unfold settle, settledDisk.
destruct (disk st !! "README.md.hbs") as [t|]; [|reflexivity].
destruct (handlebars w t data); [|reflexivity].
destruct (writable w "README.md"); reflexivity.
Qed.

Lemma settle_console w data st :
  exists lines last_line,
    console (settle w data st) = (console st ++ lines ++ [last_line])%list
    /\ (last_line = successLine \/ exists e, last_line = topLevel e).
Proof.
unfold settle.
destruct (disk st !! "README.md.hbs") as [t|].
- destruct (handlebars w t data) as [out|e].
  + destruct (writable w "README.md").
    * exists [], successLine. split; [reflexivity|left; reflexivity].
    * exists [], (topLevel (EACCES "README.md")). split; [reflexivity|right; eauto].
  + exists [errorLine "Error generating README content:" e], (topLevel e).
    split; [reflexivity|right; eauto].
- exists [errorLine "Error loading template:" (ENOENT "README.md.hbs");
          errorLine "Error generating README content:" (ENOENT "README.md.hbs")],
         (topLevel (ENOENT "README.md.hbs")).
  split; [reflexivity|right; eauto].
Qed.

Lemma settledDisk_other w data d p :
  p <> "README.md" -> settledDisk w data d !! p = d !! p.
Proof.
intros Hp. unfold settledDisk.
destruct (d !! "README.md.hbs") as [t|]; [|reflexivity].
destruct (handlebars w t data); [|reflexivity].
destruct (writable w "README.md"); [|reflexivity].
apply lookup_insert_ne. congruence.
Qed.

Lemma settledDisk_idempotent w data d :
  settledDisk w data (settledDisk w data d) = settledDisk w data d.
Proof.
assert (T : settledDisk w data d !! "README.md.hbs" = d !! "README.md.hbs")
  by (apply settledDisk_other; discriminate).
unfold settledDisk at 1. rewrite T. unfold settledDisk.
destruct (d !! "README.md.hbs") as [t|]; [|reflexivity].
destruct (handlebars w t data); [|reflexivity].
destruct (writable w "README.md"); [|reflexivity].
apply insert_insert_eq.
Qed.

(** X1. The second revision writes [README.md] only when every stage
    succeeded: either the disk is as it was and the last console line is the
    top-level error, or every request was answered, the template was read and
    rendered, and [README.md] holds the rendered text, with the success line
    last. *)
Theorem V2_main_writes_only_on_full_success w st :
  (disk (snd (V2.main w st)) = disk st
   /\ exists e, last (console (snd (V2.main w st))) = Some (topLevel e))
  \/ (exists f templateContent readmeContent,
        V2_fetched w f
        /\ disk st !! "README.md.hbs" = Some templateContent
        /\ handlebars w templateContent (Some (V2.toObject (V2_summary f))) = Ok readmeContent
        /\ writable w "README.md" = true
        /\ disk (snd (V2.main w st)) = <["README.md" := readmeContent]> (disk st)
        /\ last (console (snd (V2.main w st))) = Some successLine).
Proof.
rewrite V2_main_run.
destruct (V2.fetchAll w st) as [[s|e] st1] eqn:F; cbn [snd].
- apply V2_fetchAll_Ok_iff, V2_body_Ok_inv in F as (f & Hf & -> & ->).
  unfold settle. rewrite disk_logged.
  destruct (disk st !! "README.md.hbs") as [t|] eqn:T.
  + destruct (handlebars w t (Some (V2.toObject (V2_summary f)))) as [out|e] eqn:H.
    * destruct (writable w "README.md") eqn:W.
      -- right. exists f, t, out.
         split; [exact Hf|]. split; [reflexivity|]. split; [exact H|].
         split; [reflexivity|]. split; [reflexivity|].
         cbn [logged written console]. apply last_snoc.
      -- left. split; [reflexivity|]. exists (EACCES "README.md").
         cbn [logged console]. apply last_snoc.
    * left. split; [reflexivity|]. exists e. cbn [logged console]. apply last_two.
  + left. split; [reflexivity|]. exists (ENOENT "README.md.hbs"). cbn [logged console].
    apply last_three.
- left. destruct (logsOnly_V2_fetchAll w) as (r & lines & L). rewrite L in F.
  injection F as -> <-. split; [reflexivity|]. exists e. cbn [logged console].
  apply last_snoc.
Qed.

(** X2. [main] never throws, in either revision: whatever the network,
    the disk and the template engine do, the promise it returns resolves. *)
Theorem main_never_throws w st :
  fst (V1.main w st) = Ok tt /\ fst (V2.main w st) = Ok tt.
Proof.
rewrite V1_main_run, V2_main_run.
destruct (V1.fetchAll w st) as [[?|?] ?], (V2.fetchAll w st) as [[?|?] ?]; split; reflexivity.
Qed.

(** X3. [main] touches no file but [README.md], and only adds lines to
    the console, in either revision. *)
Theorem main_frame w st p :
  p <> "README.md" ->
  disk (snd (V1.main w st)) !! p = disk st !! p
  /\ disk (snd (V2.main w st)) !! p = disk st !! p
  /\ (exists lines, console (snd (V1.main w st)) = (console st ++ lines)%list)
  /\ (exists lines, console (snd (V2.main w st)) = (console st ++ lines)%list).
Proof.
intros Hp. rewrite V1_main_run, V2_main_run.
destruct (logsOnly_V1_fetchAll w) as (r1 & l1 & L1).
destruct (logsOnly_V2_fetchAll w) as (r2 & l2 & L2).
rewrite L1, L2.
assert (S : forall data lines,
          disk (settle w data (logged lines st)) !! p = disk st !! p
          /\ exists more, console (settle w data (logged lines st)) = (console st ++ more)%list).
{ intros data lines. split.
  - rewrite settle_disk, disk_logged. apply settledDisk_other. exact Hp.
  - destruct (settle_console w data (logged lines st)) as (ls & ll & -> & _).
    rewrite console_logged, <- app_assoc. eauto. }
destruct r1 as [d1|e1], r2 as [s2|e2]; cbn [snd];
  repeat split;
  try (apply S);
  try reflexivity;
  try (rewrite console_logged, console_logged, <- app_assoc; eauto).
Qed.

Lemma main_frame_witness :
  disk (snd (V1.main Sample.world Sample.start)) !! "README.md.hbs"
  = disk Sample.start !! "README.md.hbs"
  /\ disk (snd (V2.main Sample.world Sample.start)) !! "README.md.hbs"
     = disk Sample.start !! "README.md.hbs"
  /\ (exists lines, console (snd (V1.main Sample.world Sample.start))
                    = (console Sample.start ++ lines)%list)
  /\ (exists lines, console (snd (V2.main Sample.world Sample.start))
                    = (console Sample.start ++ lines)%list).
Proof.
exact (main_frame Sample.world Sample.start "README.md.hbs" ltac:(discriminate)).
Defined.

(** X4. The aggregation of the second revision returns a summary exactly
    when the seven requests are answered with a success and JSON, both
    pull-request searches have a first item, and the three date strings and
    the clock give valid dates; the summary is then built from those answers
    field by field, and the console shows the seven requests in order. *)
Theorem V2_fetchAll_succeeds_iff w st s st' :
  V2.fetchAll w st = (Ok s, st') <->
  exists f, V2_fetched w f /\ s = V2_summary f
            /\ st' = logged (map fetchLine
                               [ V2.reposPath; V2.issuesPath; V2.firstPrPath; V2.latestPrPath;
                                 V2.mergedPath; V2.commentsPath; V2.userPath ]) st.
Proof. rewrite V2_fetchAll_Ok_iff. apply V2_body_Ok_iff. Qed.

(** X5. The aggregation of the first revision returns a summary exactly
    when the repository list, one commit listing per repository, the four
    searches and the profile are answered with a success and JSON, the
    pull-request search has a first item, and the dates are valid; the console
    then shows the requests in that order. *)
Theorem V1_fetchAll_succeeds_iff w st s st' :
  V1.fetchAll w st = (Ok (Some s), st') <->
  exists f, V1_fetched w f /\ s = V1_summary f
            /\ st' = logged (map fetchLine
                               (V1.reposPath :: map V1.commitsPath (f1_repositories f)
                                ++ [ V1.issuesPath; V1.prsPath; V1.mergedPath;
                                     V1.commentsPath; V1.userPath ])) st.
Proof. rewrite V1_fetchAll_Some_iff. apply V1_body_Ok_iff. Qed.

(** X6. When the aggregation of the second revision fails, the error it
    throws is a new [Error] whose cause is the error caught and whose message
    is that error printed; the error caught is the last line of the console,
    and the disk is as it was. *)
Theorem V2_fetchAll_rethrows_with_cause w st e st' :
  V2.fetchAll w st = (Throw e, st') ->
  exists inner,
    fst (V2.fetchAll_body w st) = Throw inner
    /\ e = mkError "Error" (errorToString inner) (Some inner)
    /\ last (console st') = Some (errorLine "Error fetching data:" inner)
    /\ disk st' = disk st.
Proof.
intros H. apply V2_fetchAll_Throw_inv in H as (inner & st1 & B & -> & ->).
exists inner. rewrite B. split; [reflexivity|]. split; [reflexivity|].
split; [apply last_snoc|].
destruct (logsOnly_V2_body w) as (r & lines & L). rewrite L in B.
injection B as _ <-. reflexivity.
Qed.

Lemma V2_fetchAll_rethrows_with_cause_witness :
  exists inner,
    fst (V2.fetchAll_body Sample.offline Sample.start) = Throw inner
    /\ mkError "Error"
         "Error: Error fetching path `users/la55u/repos?type=public&per_page=100`"
         (Some (wrapFetchError V2.reposPath (mkError "TypeError" "fetch failed" None)))
       = mkError "Error" (errorToString inner) (Some inner)
    /\ last (console (snd (V2.fetchAll Sample.offline Sample.start)))
       = Some (errorLine "Error fetching data:" inner)
    /\ disk (snd (V2.fetchAll Sample.offline Sample.start)) = disk Sample.start.
Proof.
exact (V2_fetchAll_rethrows_with_cause Sample.offline Sample.start
         (mkError "Error"
            "Error: Error fetching path `users/la55u/repos?type=public&per_page=100`"
            (Some (wrapFetchError V2.reposPath (mkError "TypeError" "fetch failed" None))))
         (snd (V2.fetchAll Sample.offline Sample.start))
         ltac:(vm_compute; reflexivity)).
Defined.

(** X7. [fetchAll] of the first revision never throws: it returns a
    summary, or it returns [undefined], and that exactly when something in
    its [try] block threw; the error is then the last line of the console. *)
Theorem V1_fetchAll_never_throws w st :
  exists data,
    fst (V1.fetchAll w st) = Ok data
    /\ (data = None <-> exists e, fst (V1.fetchAll_body w st) = Throw e)
    /\ (forall e, fst (V1.fetchAll_body w st) = Throw e ->
        last (console (snd (V1.fetchAll w st)))
        = Some (errorLine "Something went wrong:" e)).
Proof.
unfold V1.fetchAll, try_catch, bind, ret, console_error.
destruct (V1.fetchAll_body w st) as [[s|e] st1]; cbn [fst snd].
- exists (Some s). split; [reflexivity|]. split.
  + split; [discriminate|]. intros (e & H). discriminate.
  + intros e H. discriminate.
- exists None. split; [reflexivity|]. split.
  + split; [eauto|reflexivity].
  + intros e' H. injection H as <-. cbn [console]. apply last_snoc.
Qed.

(** X8. In the first revision the file is written whether or not the
    aggregation produced a summary: when it returned [undefined], a template
    that renders without data is rendered and written over [README.md]. *)
Theorem V1_main_renders_undefined w st templateContent readmeContent :
  fst (V1.fetchAll w st) = Ok None ->
  disk st !! "README.md.hbs" = Some templateContent ->
  handlebars w templateContent None = Ok readmeContent ->
  writable w "README.md" = true ->
  disk (snd (V1.main w st)) = <["README.md" := readmeContent]> (disk st)
  /\ last (console (snd (V1.main w st))) = Some successLine.
Proof.
intros F T H W. rewrite V1_main_run.
destruct (logsOnly_V1_fetchAll w) as (r & lines & L). rewrite L in F |- *.
cbn [fst] in F. subst r. cbn [snd option_map].
unfold settle. rewrite disk_logged, T, H, W.
split; [reflexivity|]. cbn [logged written console]. apply last_snoc.
Qed.

Lemma V1_main_renders_undefined_witness :
  disk (snd (V1.main Sample.offline Sample.start))
  = <["README.md" := "Stars: , joined , updated "]> (disk Sample.start)
  /\ last (console (snd (V1.main Sample.offline Sample.start))) = Some successLine.
Proof.
exact (V1_main_renders_undefined Sample.offline Sample.start Sample.template
         "Stars: , joined , updated "
         ltac:(vm_compute; reflexivity) ltac:(vm_compute; reflexivity)
         ltac:(vm_compute; reflexivity) ltac:(reflexivity)).
Defined.


(** X10. [loadTemplate] returns the content of the file and writes
    nothing when the file exists; when it does not, it logs the error of
    [readFileSync] and throws that same error. *)
Theorem loadTemplate_outcome templateFilePath st :
  loadTemplate templateFilePath st
  = match disk st !! templateFilePath with
    | Some templateContent => (Ok templateContent, st)
    | None =>
        (Throw (ENOENT templateFilePath),
         mkState (console st
                  ++ [mkLine Stderr [PStr "Error loading template:";
                                     PErr (ENOENT templateFilePath)]])
           (disk st))
    end.
Proof. rewrite loadTemplate_run. reflexivity. Qed.

(** X11. [generateReadme] hands the template and the data, a summary or
    [undefined], to the engine and returns its output without writing
    anything.  An error is logged and thrown again as it is, not wrapped: an
    error of the engine once, a missing template twice, by [loadTemplate] and
    by [generateReadme]. *)
Theorem generateReadme_outcome w templateFilePath data st :
  generateReadme w templateFilePath data st
  = match disk st !! templateFilePath with
    | None =>
        (Throw (ENOENT templateFilePath),
         mkState (console st
                  ++ [ mkLine Stderr [PStr "Error loading template:";
                                      PErr (ENOENT templateFilePath)];
                       mkLine Stderr [PStr "Error generating README content:";
                                      PErr (ENOENT templateFilePath)] ])
           (disk st))
    | Some templateContent =>
        match handlebars w templateContent data with
        | Ok readmeContent => (Ok readmeContent, st)
        | Throw e =>
            (Throw e,
             mkState (console st
                      ++ [mkLine Stderr [PStr "Error generating README content:"; PErr e]])
               (disk st))
        end
    end.
Proof. rewrite generateReadme_run. reflexivity. Qed.

(** X12. The template is read after the aggregation: when it is missing,
    the second revision has already made its seven requests; their result is
    dropped, the error is logged three times, by [loadTemplate],
    [generateReadme] and [main], and the disk is as it was. *)
Theorem V2_missing_template w f st :
  V2_fetched w f ->
  disk st !! "README.md.hbs" = None ->
  V2.main w st
  = (Ok tt,
     logged (map fetchLine V2_paths
             ++ [ errorLine "Error loading template:" (ENOENT "README.md.hbs");
                  errorLine "Error generating README content:" (ENOENT "README.md.hbs");
                  errorLine "Error updating README file:" (ENOENT "README.md.hbs") ]) st).
Proof.
intros Hf T. rewrite V2_main_run.
assert (F : V2.fetchAll w st = (Ok (V2_summary f), logged (map fetchLine V2_paths) st))
  by (apply V2_fetchAll_Ok_iff, V2_body_fetched; exact Hf).
rewrite F. unfold settle. rewrite disk_logged, T, logged_logged. reflexivity.
Qed.

Lemma V2_fetched_sample :
  V2_fetched Sample.world
    (mkV2Fetched Sample.repositories (mkSearch 5 [])
       (mkSearch 2 [Sample.oldest; Sample.newest]) Sample.oldest
       (mkSearch 2 [Sample.newest; Sample.oldest]) Sample.newest
       (mkSearch 1 []) (mkSearch 7 []) (User.mk "2015-03-14T09:26:53Z" 2 4)
       1426325213000 1456790399000 Sample.noon 1714979289000).
Proof.
unfold V2_fetched, responds. cbn [f2_repositories f2_issuesData f2_firstPrData f2_first
  f2_latestPrData f2_latest f2_mergedPRs f2_commentsOnIssuesData f2_userData f2_registered
  f2_firstDate f2_now f2_latestDate].
repeat split;
  first [ eexists; split; [vm_compute; reflexivity|split; reflexivity]
        | vm_compute; reflexivity ].
Qed.

Lemma V2_missing_template_witness :
  V2.main Sample.world Sample.bare
  = (Ok tt,
     logged (map fetchLine V2_paths
             ++ [ errorLine "Error loading template:" (ENOENT "README.md.hbs");
                  errorLine "Error generating README content:" (ENOENT "README.md.hbs");
                  errorLine "Error updating README file:" (ENOENT "README.md.hbs") ])
       Sample.bare).
Proof.
exact (V2_missing_template Sample.world _ Sample.bare V2_fetched_sample ltac:(reflexivity)).
Defined.

(** X13. In the second revision a pull-request search without items
    aborts the run: [items[0].created_at] throws a [TypeError], no further
    request is made, [fetchAll] logs the error and rethrows it wrapped with
    the [TypeError] as cause, [main] logs the wrapped error once, and the disk
    is as it was. *)
Theorem V2_empty_search_aborts w st repositories issuesData total :
  responds (repo_listing w) (V2.accessToken w) V2.reposPath repositories ->
  responds (search w) (V2.accessToken w) V2.issuesPath issuesData ->
  responds (search w) (V2.accessToken w) V2.firstPrPath (mkSearch total []) ->
  V2.main w st
  = (Ok tt,
     logged [ fetchLine V2.reposPath; fetchLine V2.issuesPath; fetchLine V2.firstPrPath;
              errorLine "Error fetching data:"
                (mkError "TypeError"
                   "Cannot read properties of undefined (reading 'created_at')" None);
              errorLine "Error updating README file:"
                (mkError "Error"
                   "TypeError: Cannot read properties of undefined (reading 'created_at')"
                   (Some (mkError "TypeError"
                            "Cannot read properties of undefined (reading 'created_at')"
                            None))) ] st).
Proof.
intros R I F. rewrite V2_main_run. unfold V2.fetchAll, V2.fetchAll_body, try_catch.
do 3 run_bind. cbn [items head getProp]. rewrite bind_liftExc.
unfold bind, console_error, throw. cbn. unfold logged. cbn.
rewrite <- !app_assoc. reflexivity.
Qed.

Lemma V2_empty_search_aborts_witness :
  V2.main Sample.noPullRequests Sample.start
  = (Ok tt,
     logged [ fetchLine V2.reposPath; fetchLine V2.issuesPath; fetchLine V2.firstPrPath;
              errorLine "Error fetching data:"
                (mkError "TypeError"
                   "Cannot read properties of undefined (reading 'created_at')" None);
              errorLine "Error updating README file:"
                (mkError "Error"
                   "TypeError: Cannot read properties of undefined (reading 'created_at')"
                   (Some (mkError "TypeError"
                            "Cannot read properties of undefined (reading 'created_at')"
                            None))) ] Sample.start).
Proof.
apply (V2_empty_search_aborts Sample.noPullRequests Sample.start
         Sample.repositories (mkSearch 5 []) 0);
  (eexists; split; [vm_compute; reflexivity|split; reflexivity]).
Defined.

(** X14. A [created_at] that is no date aborts the aggregation of the
    second revision after the last request: [toISOString] throws a
    [RangeError], which [fetchAll] logs and rethrows wrapped. *)
Theorem V2_invalid_date_aborts w st repositories issuesData firstPrData first
    latestPrData latest mergedPRs commentsOnIssuesData userData :
  responds (repo_listing w) (V2.accessToken w) V2.reposPath repositories ->
  responds (search w) (V2.accessToken w) V2.issuesPath issuesData ->
  responds (search w) (V2.accessToken w) V2.firstPrPath firstPrData ->
  head (items firstPrData) = Some first ->
  responds (search w) (V2.accessToken w) V2.latestPrPath latestPrData ->
  head (items latestPrData) = Some latest ->
  responds (search w) (V2.accessToken w) V2.mergedPath mergedPRs ->
  responds (search w) (V2.accessToken w) V2.commentsPath commentsOnIssuesData ->
  responds (profile w) (V2.accessToken w) V2.userPath userData ->
  Date_of_string w (User.created_at userData) = None ->
  fst (V2.fetchAll w st)
  = Throw (mkError "Error" "RangeError: Invalid time value"
             (Some (mkError "RangeError" "Invalid time value" None)))
  /\ console (snd (V2.fetchAll w st))
     = (console st ++ map fetchLine V2_paths
        ++ [errorLine "Error fetching data:"
              (mkError "RangeError" "Invalid time value" None)])%list.
Proof.
intros R I F HF L HL Mg C U D.
unfold V2.fetchAll, V2.fetchAll_body, try_catch.
do 3 run_bind. rewrite HF. cbn [getProp]. do 3 run_bind.
rewrite HL. cbn [getProp]. do 5 run_bind.
rewrite D. cbn [isoDate toISOString]. rewrite bind_liftExc.
unfold console_error, bind, throw. cbn [fst snd]. split; [reflexivity|].
cbn [console logged]. rewrite <- !app_assoc. reflexivity.
Qed.

Lemma V2_invalid_date_aborts_witness :
  fst (V2.fetchAll Sample.undated Sample.start)
  = Throw (mkError "Error" "RangeError: Invalid time value"
             (Some (mkError "RangeError" "Invalid time value" None)))
  /\ console (snd (V2.fetchAll Sample.undated Sample.start))
     = (console Sample.start ++ map fetchLine V2_paths
        ++ [errorLine "Error fetching data:"
              (mkError "RangeError" "Invalid time value" None)])%list.
Proof.
apply (V2_invalid_date_aborts Sample.undated Sample.start
         Sample.repositories (mkSearch 5 [])
         (mkSearch 2 [Sample.oldest; Sample.newest]) Sample.oldest
         (mkSearch 2 [Sample.newest; Sample.oldest]) Sample.newest
         (mkSearch 1 []) (mkSearch 7 []) (User.mk "not a date" 2 4));
  first [ eexists; split; [vm_compute; reflexivity|split; reflexivity]
        | vm_compute; reflexivity ].
Defined.

(** X15. The loop over the repositories stops at the first commit listing
    that cannot be fetched: the listings before it were fetched in order, the
    error of that one is thrown, and no request is made for the repositories
    after it. *)
Theorem countCommits_stops_at_first_failure w before repo after commits e : forall acc st,
  Forall2 (fun r commitsData =>
             responds (commit_listing w) (V1.accessToken w) (V1.commitsPath r) commitsData)
    before commits ->
  fetchOutcome (V1.accessToken w) (commit_listing w) (V1.commitsPath repo) = Throw e ->
  V1.countCommits w (before ++ repo :: after) acc st
  = (Throw e, logged (map fetchLine (map V1.commitsPath (before ++ [repo]))) st).
Proof.
revert commits. induction before as [|r rest IH]; intros commits acc st F E.
- cbn [app V1.countCommits map]. rewrite bind_fetchData, E. reflexivity.
- inversion F as [|? c ? cs Hr Hrest]; subst.
  cbn [app V1.countCommits map]. run_bind.
  rewrite (IH cs _ _ Hrest E), logged_logged. reflexivity.
Qed.

Lemma countCommits_stops_at_first_failure_witness :
  V1.countCommits Sample.world
    ([mkRepo "alpha" 1 false] ++ mkRepo "zeta" 0 false :: [mkRepo "beta" 2 false])
    0 Sample.start
  = (Throw (wrapFetchError "repos/la55u/zeta/commits"
              (mkError "SyntaxError" "Unexpected end of JSON input" None)),
     logged (map fetchLine
               (map V1.commitsPath ([mkRepo "alpha" 1 false] ++ [mkRepo "zeta" 0 false])))
       Sample.start).
Proof.
apply (countCommits_stops_at_first_failure Sample.world [mkRepo "alpha" 1 false]
         (mkRepo "zeta" 0 false) [mkRepo "beta" 2 false]
         [[mkCommit "a1"; mkCommit "a2"]]).
- constructor; [|constructor].
  eexists; split; [vm_compute; reflexivity|split; reflexivity].
- vm_compute. reflexivity.
Defined.

(** X16. The second revision makes at most seven requests, always in the
    same order and each at most once: whatever happens, the lines its [try]
    block writes are the "Fetching" lines of the first requests of the
    sequence, and it writes nothing to the disk. *)
Theorem V2_requests_are_a_prefix w st :
  exists n,
    snd (V2.fetchAll_body w st)
    = logged (map fetchLine
                (take n [ V2.reposPath; V2.issuesPath; V2.firstPrPath; V2.latestPrPath;
                          V2.mergedPath; V2.commentsPath; V2.userPath ])) st.
Proof.
unfold V2.fetchAll_body.
repeat (rewrite ?bind_fetchData, ?bind_liftExc; cbv beta zeta;
        match goal with
        | |- context [match ?x with Ok _ => _ | Throw _ => _ end] =>
            destruct x;
            [|cbn [snd]; rewrite ?logged_logged;
              first [ exists 1%nat; reflexivity | exists 2%nat; reflexivity
                    | exists 3%nat; reflexivity | exists 4%nat; reflexivity
                    | exists 5%nat; reflexivity | exists 6%nat; reflexivity
                    | exists 7%nat; reflexivity ]]
        end).
unfold ret. cbn [snd]. rewrite ?logged_logged. exists 7%nat. reflexivity.
Qed.

(** X17. Running [main] again on what it left leaves the disk as it is,
    in either revision: the refresh is idempotent while the world answers the
    same. *)
Theorem main_idempotent_on_disk w st :
  disk (snd (V2.main w (snd (V2.main w st)))) = disk (snd (V2.main w st))
  /\ disk (snd (V1.main w (snd (V1.main w st)))) = disk (snd (V1.main w st)).
Proof.
destruct (logsOnly_V2_fetchAll w) as (r2 & l2 & L2).
destruct (logsOnly_V1_fetchAll w) as (r1 & l1 & L1).
split.
- rewrite !V2_main_run, !L2. destruct r2 as [s|e]; cbn [snd].
  + rewrite !settle_disk, !disk_logged, settle_disk, disk_logged.
    apply settledDisk_idempotent.
  + reflexivity.
- rewrite !V1_main_run, !L1. destruct r1 as [s|e]; cbn [snd].
  + rewrite !settle_disk, !disk_logged, settle_disk, disk_logged.
    apply settledDisk_idempotent.
  + reflexivity.
Qed.

(** X18. On a list without private repositories the two revisions count
    the same stars: the filter of the second changes nothing when the server
    honours [type=public]. *)
Theorem sumStars_public_only repositories :
  Forall (fun repo => private repo = false) repositories ->
  V2.sumStars repositories = V1.sumStars repositories.
Proof.
intros H. rewrite V2_sumStars_sum, V1_sumStars_sum. f_equal. f_equal.
induction H as [|repo rest Hp _ IH]; [reflexivity|].
cbn [List.filter]. rewrite Hp. cbn [negb]. f_equal. exact IH.
Qed.

Lemma sumStars_public_only_witness :
  V2.sumStars [mkRepo "alpha" 1 false; mkRepo "beta" 2 false]
  = V1.sumStars [mkRepo "alpha" 1 false; mkRepo "beta" 2 false].
Proof.
apply (sumStars_public_only [mkRepo "alpha" 1 false; mkRepo "beta" 2 false]).
repeat constructor.
Defined.

(** X19. For a date whose UTC year is below 0 or above 9999 the
    normalized field is cut inside the expanded year form: a sign, six digits
    of the year, a hyphen and the two digits of the month, and no day. *)
Theorem isoDate_expanded_year t :
  Z.abs t <= 8640000000000000 ->
  ~ (0 <= JsDate.YearFromTime t <= 9999) ->
  isoDate (JsDate.TimeClip t)
  = Ok ((if 0 <=? JsDate.YearFromTime t then "+" else "-")
        +:+ JsDate.pad6 (Z.abs (JsDate.YearFromTime t)) +:+ "-"
        +:+ JsDate.pad2 (JsDate.MonthFromTime t + 1)).
Proof.
intros V Y. rewrite TimeClip_valid by exact V. rewrite isoDate_Some.
f_equal. apply dateText_expanded. exact Y.
Qed.

Lemma isoDate_expanded_year_witness :
  isoDate (JsDate.TimeClip 253402300800000) = Ok "+010000-01".
Proof.
exact (isoDate_expanded_year 253402300800000
         ltac:(vm_compute; discriminate)
         ltac:(vm_compute; intros [_ H]; apply H; reflexivity)).
Defined.

Lemma parseFormat_date_prefix y mo d rest :
  0 <= y <= 9999 -> 1 <= mo <= 12 -> 1 <= d <= JsDate.DaysInMonth y (mo - 1) ->
  JsDate.parseFormat (JsDate.ymdText y mo d +:+ rest) = JsDate.withTime y mo d rest.
Proof.
intros Hy Hmo Hd.
replace (JsDate.ymdText y mo d +:+ rest)
  with (JsDate.pad4 y +:+ "-" +:+ JsDate.pad2 mo +:+ "-" +:+ JsDate.pad2 d +:+ rest)
  by reflexivity.
unfold JsDate.parseFormat, JsDate.parseYear.
pose proof (DaysInMonth_le_31 y (mo - 1) ltac:(lia)).
destruct (pad4_split y Hy) as (a & b & Ha & Hb & Ey & E4).
destruct (pad2_split a Ha) as (a1 & a2 & ? & ? & Ea & E2).
assert (Hlead : forall r, match JsDate.pad4 y +:+ r with
                          | String "+" tail => JsDate.readDigits 6 0 tail
                          | String "-" tail =>
                              match JsDate.readDigits 6 0 tail with
                              | Some (y, rest') => if y =? 0 then None else Some (- y, rest')
                              | None => None
                              end
                          | _ => JsDate.readDigits 4 0 (JsDate.pad4 y +:+ r)
                          end = JsDate.readDigits 4 0 (JsDate.pad4 y +:+ r)).
{ intros r. rewrite E4, E2. str_norm.
  pose proof (digitValue_digitChar a1 ltac:(lia)) as DV.
  destruct (JsDate.digitChar a1) as [[|] [|] [|] [|] [|] [|] [|] [|]];
    try reflexivity; vm_compute in DV; discriminate DV. }
rewrite Hlead, readDigits4_pad4 by assumption. str_norm.
rewrite readDigits2_pad2 by lia. str_norm.
rewrite readDigits2_pad2 by lia.
replace (100 * 0 + mo) with mo by lia. replace (100 * 0 + d) with d by lia.
replace ((1 <=? mo) && (mo <=? 12) && (1 <=? d) && (d <=? JsDate.DaysInMonth y (mo - 1)))
  with true; [reflexivity|].
symmetry. repeat (apply andb_true_iff; split); apply Z.leb_le; lia.
Qed.

Lemma withTime_utc_seconds y mo d h mi se :
  0 <= h <= 23 -> 0 <= mi <= 59 -> 0 <= se <= 59 ->
  JsDate.withTime y mo d
    ("T" +:+ JsDate.pad2 h +:+ ":" +:+ JsDate.pad2 mi +:+ ":" +:+ JsDate.pad2 se +:+ "Z")
  = Some (JsDate.mkFields y mo d (Some (h, mi, se, 0)) (JsDate.UtcOffset 0)).
Proof.
intros Hh Hmi Hse. unfold JsDate.withTime. str_norm. unfold JsDate.parseTime.
rewrite readDigits2_pad2 by lia. str_norm.
rewrite readDigits2_pad2 by lia. str_norm.
rewrite readDigits2_pad2 by lia.
replace (100 * 0 + h) with h by lia. replace (100 * 0 + mi) with mi by lia.
replace (100 * 0 + se) with se by lia.
cbn [JsDate.parseOffset].
replace ((mi <=? 59) && (se <=? 59)
         && ((h <=? 23) || (h =? 24) && (mi =? 0) && (se =? 0) && (0 =? 0)))
  with true; [reflexivity|].
symmetry. apply andb_true_iff; split; [apply andb_true_iff; split; apply Z.leb_le; lia|].
apply orb_true_iff. left. apply Z.leb_le. lia.
Qed.

(** X20. A timestamp in the form the API returns, a valid date and time
    of day followed by [Z], is normalized to its own date part, the ten
    characters before the [T], on every host. *)
Theorem timestamp_normalizes_to_its_date w y mo d h mi se :
  0 <= y <= 9999 -> 1 <= mo <= 12 -> 1 <= d <= JsDate.DaysInMonth y (mo - 1) ->
  0 <= h <= 23 -> 0 <= mi <= 59 -> 0 <= se <= 59 ->
  isoDate (Date_of_string w
             (JsDate.ymdText y mo d +:+ "T" +:+ JsDate.pad2 h +:+ ":" +:+ JsDate.pad2 mi
              +:+ ":" +:+ JsDate.pad2 se +:+ "Z"))
  = Ok (JsDate.ymdText y mo d).
Proof.
intros Hy Hmo Hd Hh Hmi Hse. unfold Date_of_string, JsDate.parse.
rewrite parseFormat_date_prefix by assumption.
rewrite withTime_utc_seconds by assumption.
unfold JsDate.timeOfFields.
cbn [JsDate.f_time JsDate.f_year JsDate.f_month JsDate.f_day JsDate.f_offset].
set (time := JsDate.MakeTime h mi se 0).
assert (Ht : 0 <= time < JsDate.msPerDay)
  by (subst time; unfold JsDate.MakeTime, JsDate.msPerDay; lia).
pose proof (DaysInMonth_le_31 y (mo - 1) ltac:(lia)).
pose proof (MakeDay_range y (mo - 1) d Hy ltac:(lia) ltac:(lia)).
rewrite Z.sub_0_r.
rewrite TimeClip_valid
  by (unfold JsDate.MakeDate, JsDate.msPerDay in *; lia).
rewrite isoDate_Some. f_equal.
pose proof (date_of_MakeDate y (mo - 1) d time ltac:(lia) Hd Ht) as (EY & EM & ED).
rewrite dateText_ymd by (rewrite EY; exact Hy).
rewrite EY, EM, ED. f_equal. lia.
Qed.

Lemma timestamp_normalizes_to_its_date_witness :
  isoDate (Date_of_string Sample.world "2015-03-14T09:26:53Z") = Ok "2015-03-14".
Proof.
exact (timestamp_normalizes_to_its_date Sample.world 2015 3 14 9 26 53
         ltac:(lia) ltac:(lia) ltac:(vm_compute; split; discriminate)
         ltac:(lia) ltac:(lia) ltac:(lia)).
Defined.

(** X21. Without the token in the environment the second revision sends
    "Bearer undefined"; when the server refuses such a request, the run stops
    at the first request, logs the failure in [fetchAll] and once more at the
    top level, and leaves the disk as it was. *)
Theorem V2_without_token w st :
  env w !! "GITHUB_TOKEN" = None ->
  (forall u h, In ("Authorization", "Bearer undefined") h ->
               exists r, repo_listing w (mkRequest u h) = Ok r /\ ok r = false) ->
  exists cause,
    V2.main w st
    = (Ok tt,
       logged [ fetchLine V2.reposPath;
                errorLine "Error fetching data:" (wrapFetchError V2.reposPath cause);
                errorLine "Error updating README file:"
                  (mkError "Error" (errorToString (wrapFetchError V2.reposPath cause))
                     (Some (wrapFetchError V2.reposPath cause))) ] st).
Proof.
intros E S.
destruct (S ("https://api.github.com/" +:+ V2.reposPath) (requestHeaders None)
            ltac:(left; reflexivity)) as (r & Hr & Ho).
assert (O : exists cause,
          fetchOutcome (V2.accessToken w) (repo_listing w) V2.reposPath
          = Throw (wrapFetchError V2.reposPath cause)).
{ unfold fetchOutcome, requestFor, V2.accessToken. rewrite E, Hr, Ho.
  destruct (json r); eauto. }
destruct O as (cause & O). exists cause.
rewrite V2_main_run. unfold V2.fetchAll, V2.fetchAll_body, try_catch.
rewrite bind_fetchData, O. unfold bind, console_error, throw. cbn.
unfold logged. cbn. rewrite <- !app_assoc. reflexivity.
Qed.

Lemma V2_without_token_witness :
  exists cause,
    V2.main Sample.anonymous Sample.start
    = (Ok tt,
       logged [ fetchLine V2.reposPath;
                errorLine "Error fetching data:" (wrapFetchError V2.reposPath cause);
                errorLine "Error updating README file:"
                  (mkError "Error" (errorToString (wrapFetchError V2.reposPath cause))
                     (Some (wrapFetchError V2.reposPath cause))) ] Sample.start).
Proof.
apply (V2_without_token Sample.anonymous Sample.start); [reflexivity|].
intros u h _. eexists. split; reflexivity.
Defined.

(** X22. When every request is answered, the template is on the disk,
    the engine renders it and the file can be written, the second revision
    writes the rendered text to [README.md], logs the seven requests and
    the success line, and nothing else. *)
Theorem V2_main_full_success w f st templateContent readmeContent :
  V2_fetched w f ->
  disk st !! "README.md.hbs" = Some templateContent ->
  handlebars w templateContent (Some (V2.toObject (V2_summary f))) = Ok readmeContent ->
  writable w "README.md" = true ->
  V2.main w st
  = (Ok tt,
     mkState (console st ++ map fetchLine V2_paths ++ [successLine])
       (<["README.md" := readmeContent]> (disk st))).
Proof.
intros Hf T H W. rewrite V2_main_run.
assert (F : V2.fetchAll w st = (Ok (V2_summary f), logged (map fetchLine V2_paths) st))
  by (apply V2_fetchAll_Ok_iff, V2_body_fetched; exact Hf).
rewrite F. unfold settle. rewrite disk_logged, T, H, W.
unfold logged, written. cbn [console disk]. rewrite <- app_assoc. reflexivity.
Qed.

Lemma V2_main_full_success_witness :
  V2.main Sample.world Sample.start
  = (Ok tt,
     mkState (console Sample.start ++ map fetchLine V2_paths ++ [successLine])
       (<["README.md" := "Stars: 3, joined 2015-03-14, updated 2024-06-01"]>
          (disk Sample.start))).
Proof.
exact (V2_main_full_success Sample.world _ Sample.start Sample.template
         "Stars: 3, joined 2015-03-14, updated 2024-06-01"
         V2_fetched_sample ltac:(reflexivity) ltac:(vm_compute; reflexivity)
         ltac:(reflexivity)).
Defined.
